(** * fastify-server: the conformance API plugin

    A shallow embedding of [src/conformanceApiPlugin.ts]: the coercions
    applied to raw query parameters and path segments, the request
    binders, the error table and the response shaping of the nine
    route handlers, followed by the properties established for them.

    Conventions of the model.
    - A JavaScript string is a [string] whose characters are code units
      in the range 0..255 (read as U+0000..U+00FF).
    - An optional property is an [option]; a property holding
      [undefined] and a missing property are both [None].
    - A JavaScript object used as a dictionary (the query, the route
      parameters, the headers, the error table) is a [gmap string _].
    - A handler is a computation over the [Reply] it mutates, which
      finishes normally, by [return], or by [throw]; [reply.status]
      throws on an argument that is not a status number. *)

From Stdlib Require Import ZArith NArith Ascii String Bool List Lia.
From stdpp Require Import base option strings gmap.

Local Open Scope string_scope.
Local Open Scope Z_scope.

(** ** JavaScript numbers *)

Module JsNumber.

(** A Number is NaN, an infinity, or the finite double [±m·2^e]. The
    representation is canonical: [e <= 0], and [m] is odd when [e < 0];
    an integer-valued double [n] is [Finite _ n 0], and the two zeros are
    [Finite false 0 0] and [Finite true 0 0]. *)
Inductive Number : Type :=
| NaN
| Infinity (neg : bool)
| Finite (neg : bool) (m : Z) (e : Z).

Definition Number_eqb (x y : Number) : bool :=
  match x, y with
  | NaN, NaN => true
  | Infinity a, Infinity b => Bool.eqb a b
  | Finite a m e, Finite b m' e' => Bool.eqb a b && (m =? m') && (e =? e')
  | _, _ => false
  end.

(** The number of low zero bits of a positive. *)
Fixpoint trailingZeros (p : positive) : Z :=
  match p with
  | xO p' => 1 + trailingZeros p'
  | _ => 0
  end.

(** The canonical form of [±m·2^e], for [0 <= m]. *)
Definition normalize (neg : bool) (m e : Z) : Number :=
  match m with
  | Zpos p =>
      if 0 <=? e then Finite neg (m * 2 ^ e) 0
      else
        let s := Z.min (trailingZeros p) (- e) in
        Finite neg (m / 2 ^ s) (e + s)
  | _ => Finite neg 0 0
  end.

(** [binade p q] is the integer [k] with [2^k <= p/q < 2^(k+1)], for
    positive [p] and [q]. *)
Definition binade (p q : Z) : Z :=
  let k := Z.log2 p - Z.log2 q in
  if 0 <=? k
  then (if p <? q * 2 ^ k then k - 1 else k)
  else (if p * 2 ^ (- k) <? q then k - 1 else k).

(** The Number value of the non-negative rational [p/q] with sign [neg]:
    the binary64 double nearest to it, ties to the even significand,
    subnormals below [2^-1022], an infinity from [2^1024] on. *)
Definition roundRatio (neg : bool) (p q : Z) : Number :=
  if p <=? 0 then Finite neg 0 0
  else
    let k := binade p q in
    let e := Z.max (k - 52) (-1074) in
    let num := if e <? 0 then p * 2 ^ (- e) else p in
    let den := if e <? 0 then q else q * 2 ^ e in
    let m0 := num / den in
    let r := num mod den in
    let m := if (den <? 2 * r) || ((den =? 2 * r) && Z.odd m0)
             then m0 + 1 else m0 in
    if (0 <=? e) && (2 ^ 1024 <=? m * 2 ^ e) then Infinity neg
    else normalize neg m e.

(** The Number value of the decimal [±m·10^e], rounded exactly also for
    a literal of more than twenty significant digits. *)
Definition ofDecimal (neg : bool) (m e : Z) : Number :=
  if 0 <=? e then roundRatio neg (m * 10 ^ e) 1
  else roundRatio neg m (10 ^ (- e)).

(** The Number value of a non-negative mathematical integer. *)
Definition ofInteger (neg : bool) (n : Z) : Number := roundRatio neg n 1.

End JsNumber.
Export JsNumber.

(** ** Strings and the global parsing functions *)

Module JsString.

Definition charCode (c : ascii) : Z := Z.of_N (N_of_ascii c).

(** StrWhiteSpaceChar: white space and line terminators. *)
Definition isWhiteSpace (c : ascii) : bool :=
  let n := charCode c in
  ((9 <=? n) && (n <=? 13)) || (n =? 32) || (n =? 160).

Definition isDigit (c : ascii) : bool :=
  let n := charCode c in (48 <=? n) && (n <=? 57).

(** The value of a digit of radix 10 or 16, if [c] is one. *)
Definition digitValue (radix : Z) (c : ascii) : option Z :=
  let n := charCode c in
  if (48 <=? n) && (n <=? 57) then Some (n - 48)
  else if (radix =? 16) && (97 <=? n) && (n <=? 102) then Some (n - 87)
  else if (radix =? 16) && (65 <=? n) && (n <=? 70) then Some (n - 55)
  else None.

Fixpoint trimStart (s : string) : string :=
  match s with
  | String c s' => if isWhiteSpace c then trimStart s' else s
  | EmptyString => s
  end.

(** An optional leading sign: whether it is [-], and the rest. *)
Definition takeSign (s : string) : bool * string :=
  match s with
  | String "-" s' => (true, s')
  | String "+" s' => (false, s')
  | _ => (false, s)
  end.

(** The longest prefix of radix-[radix] digits, read most significant
    digit first onto the accumulator [acc]: the number of digits read,
    the value, and the rest of the string. *)
Fixpoint takeDigits (radix : Z) (s : string) (count acc : Z) : Z * Z * string :=
  match s with
  | String c s' =>
      match digitValue radix c with
      | Some d => takeDigits radix s' (count + 1) (acc * radix + d)
      | None => (count, acc, s)
      end
  | EmptyString => (count, acc, s)
  end.

Definition toLowerChar (c : ascii) : ascii :=
  let n := charCode c in
  if ((65 <=? n) && (n <=? 90))
     || ((192 <=? n) && (n <=? 222) && negb (n =? 215))
  then ascii_of_N (Z.to_N (n + 32)) else c.

Fixpoint toLowerCase (s : string) : string :=
  match s with
  | String c s' => String (toLowerChar c) (toLowerCase s')
  | EmptyString => EmptyString
  end.

Fixpoint startsWith (p s : string) : bool :=
  match p, s with
  | EmptyString, _ => true
  | String a p', String b s' => Ascii.eqb a b && startsWith p' s'
  | String _ _, EmptyString => false
  end.

Definition drop2 (s : string) : string :=
  match s with
  | String _ (String _ s') => s'
  | _ => s
  end.

(** [parseInt(s)] with no radix argument: leading white space is
    skipped, a sign is read, a [0x] or [0X] prefix selects radix 16 and
    anything else radix 10; the longest digit prefix is the integer, and
    without a digit the result is NaN. *)
Definition parseInt (s : string) : Number :=
  let '(neg, s1) := takeSign (trimStart s) in
  let hex := startsWith "0x" s1 || startsWith "0X" s1 in
  let radix := if hex then 16 else 10 in
  let s2 := if hex then drop2 s1 else s1 in
  let '(count, mathInt, _) := takeDigits radix s2 0 0 in
  if count =? 0 then NaN else ofInteger neg mathInt.

(** The exponent part of a decimal literal: [e] or [E], an optional
    sign, and at least one digit; otherwise there is no exponent. *)
Definition takeExponent (s : string) : Z :=
  match s with
  | String c s' =>
      if (charCode c =? 101) || (charCode c =? 69) then
        let '(neg, s1) := takeSign s' in
        let '(count, v, _) := takeDigits 10 s1 0 0 in
        if count =? 0 then 0 else if neg then - v else v
      else 0
  | EmptyString => 0
  end.

(** [parseFloat(s)]: the longest prefix of the trimmed string that is a
    StrDecimalLiteral, or NaN when there is none. *)
Definition parseFloat (s : string) : Number :=
  let '(neg, s1) := takeSign (trimStart s) in
  if startsWith "Infinity" s1 then Infinity neg
  else
    let '(icount, ival, s2) := takeDigits 10 s1 0 0 in
    let '(fcount, mant, s3) :=
      match s2 with
      | String "." s2' => takeDigits 10 s2' 0 ival
      | _ => (0, ival, s2)
      end in
    if icount + fcount =? 0 then NaN
    else ofDecimal neg mant (takeExponent s3 - fcount).

End JsString.
Export JsString.

(** [parseBoolean] of the plugin, on a defined string. *)
Definition parseBoolean (value : string) : option bool :=
  let lowerValue := toLowerCase value in
  if String.eqb lowerValue "true" then Some true
  else if String.eqb lowerValue "false" then Some false
  else None.

(** ** JavaScript values where the plugin relies on truthiness *)

Module Js.

(** The values that [standardErrorCodes[code]], [result.error.code] and
    the argument of [reply.status] range over. [VInherited k] is the
    member named [k] of [Object.prototype], a function or an object. *)
Inductive Value : Type :=
| VUndefined
| VNumber (n : Z)
| VString (s : string)
| VInherited (k : string).

Definition truthy (v : Value) : bool :=
  match v with
  | VUndefined => false
  | VNumber n => negb (n =? 0)
  | VString s => negb (String.eqb s "")
  | VInherited _ => true
  end.

(** The property names every object literal inherits. *)
Definition objectPrototypeKeys : list string :=
  [ "constructor"; "__defineGetter__"; "__defineSetter__"; "hasOwnProperty";
    "__lookupGetter__"; "__lookupSetter__"; "isPrototypeOf";
    "propertyIsEnumerable"; "toString"; "valueOf"; "__proto__";
    "toLocaleString" ].

(** [obj[key]] for an object literal with the numeric own properties
    [own]: the own property, else the inherited one, else undefined. *)
Definition getProperty (own : gmap string Z) (key : string) : Value :=
  match own !! key with
  | Some n => VNumber n
  | None =>
      if bool_decide (key ∈ objectPrototypeKeys) then VInherited key
      else VUndefined
  end.

End Js.

(** ** The service interface *)

(** Modelled from the spec: [conformanceApiTypes] is not part of the
    sources; the payload types it declares, which the plugin passes
    through without inspecting them, are the fields of this signature. *)
Record Types : Type := {
  ApiInfo : Type;
  Widget : Type;
  BatchResult : Type;
  Any : Type;
  CheckResponse : Type
}.

(** Modelled from the spec: the error of a result, [{code, message?}]. *)
Record ServiceError : Type := {
  code : option string;
  message : option string
}.

(** Modelled from the spec: the result of a service method, with an
    optional [error] and an optional [value]. *)
Record ServiceResult (V : Type) : Type := {
  error : option ServiceError;
  value : option V
}.
Arguments error {V} _.
Arguments value {V} _.

(** The payload of [mirrorFields], in the request and in the response. *)
Record MirrorFields (T : Types) : Type := {
  field : option (Any T);
  matrix : option (list (list (list Number)))
}.
Arguments field {T} _.
Arguments matrix {T} _.

(** ** The error table *)

(** The entries of the object literal [standardErrorCodes]. *)
Definition errorTable : list (string * Z) :=
  [ ("NotModified", 304); ("InvalidRequest", 400); ("NotAuthenticated", 401);
    ("NotAuthorized", 403); ("NotFound", 404); ("Conflict", 409);
    ("RequestTooLarge", 413); ("TooManyRequests", 429);
    ("InternalError", 500); ("ServiceUnavailable", 503); ("NotAdmin", 403) ].

Definition standardErrorCodes : gmap string Z := list_to_map errorTable.

(** [result.error.code && standardErrorCodes[result.error.code]] *)
Definition errorStatusLookup (e : ServiceError) : Js.Value :=
  match code e with
  | None => Js.VUndefined
  | Some c =>
      if Js.truthy (Js.VString c) then Js.getProperty standardErrorCodes c
      else Js.VString c
  end.

(** [status || 500], the argument of [reply.status] for an error. *)
Definition errorStatus (e : ServiceError) : Js.Value :=
  let status := errorStatusLookup e in
  if Js.truthy status then status else Js.VNumber 500.

(** ** The framework objects *)

Module Fastify.

(** A parsed query parameter: a string, or an array when the parameter
    is repeated. *)
Inductive QueryValue : Type :=
| QString (s : string)
| QArray (l : list string).

Record Request (B : Type) : Type := {
  query : gmap string QueryValue;
  params : gmap string string;
  headers : gmap string string;
  body : B
}.
Arguments query {B} _.
Arguments params {B} _.
Arguments headers {B} _.
Arguments body {B} _.

(** What a handler passes to [reply.send]. *)
Inductive Payload (T : Types) : Type :=
| PError (e : ServiceError)
| PApiInfo (info : ApiInfo T)
| PWidgets (widgets : option (list (Widget T)))
| PWidget (w : Widget T)
| PResults (results : list (BatchResult T))
| PMirror (m : MirrorFields T)
| PCheck (c : CheckResponse T)
| PEmptyObject.
Arguments PError {T} _.
Arguments PApiInfo {T} _.
Arguments PWidgets {T} _.
Arguments PWidget {T} _.
Arguments PResults {T} _.
Arguments PMirror {T} _.
Arguments PCheck {T} _.
Arguments PEmptyObject {T}.

(** The reply: the last argument of [reply.status], if it was called,
    the headers set and the payloads sent, both oldest first. *)
Record Reply (T : Types) : Type := {
  statusCode : option Js.Value;
  replyHeaders : list (string * string);
  sent : list (Payload T)
}.
Arguments statusCode {T} _.
Arguments replyHeaders {T} _.
Arguments sent {T} _.

Definition newReply {T : Types} : Reply T :=
  {| statusCode := None; replyHeaders := []; sent := [] |}.

(** How a statement list ends: it runs to its end, executes [return],
    or throws. *)
Inductive Completion (A : Type) : Type :=
| Normal (a : A)
| Return
| Throw (msg : string).
Arguments Normal {A} _.
Arguments Return {A}.
Arguments Throw {A} _.

Definition Handler (T : Types) (A : Type) : Type :=
  Reply T -> Reply T * Completion A.

#[export] Instance handler_ret {T} : MRet (Handler T) :=
  fun A a r => (r, Normal a).

#[export] Instance handler_bind {T} : MBind (Handler T) :=
  fun A B k m r =>
    match m r with
    | (r', Normal a) => k a r'
    | (r', Return) => (r', Return)
    | (r', Throw msg) => (r', Throw msg)
    end.

Definition skip {T} : Handler T unit := mret tt.

Definition jsReturn {T} : Handler T unit := fun r => (r, Return).

Definition throw {T} (msg : string) : Handler T unit := fun r => (r, Throw msg).

(** The code of the error that [reply.status] throws. *)
Definition badStatusCode : string := "FST_ERR_BAD_STATUS_CODE".

(** The arguments [reply.status] accepts: the numbers from 100 to 599.
    Undefined and the members of [Object.prototype] convert to NaN and
    are refused. A string argument, which no handler passes (lemma
    [errorStatus_not_string]), is refused as well. *)
Definition validStatus (c : Js.Value) : bool :=
  match c with
  | Js.VNumber n => (100 <=? n) && (n <=? 599)
  | _ => false
  end.

(** [reply.status(c)] sets the status, or throws on a refused argument,
    in which case a chained [.send] does not run. *)
Definition status {T} (c : Js.Value) : Handler T unit :=
  fun r =>
    if validStatus c
    then ({| statusCode := Some c; replyHeaders := replyHeaders r;
             sent := sent r |}, Normal tt)
    else (r, Throw badStatusCode).

Definition header {T} (name v : string) : Handler T unit :=
  fun r => ({| statusCode := statusCode r;
               replyHeaders := replyHeaders r ++ [(name, v)];
               sent := sent r |}, Normal tt).

Definition send {T} (p : Payload T) : Handler T unit :=
  fun r => ({| statusCode := statusCode r; replyHeaders := replyHeaders r;
               sent := sent r ++ [p] |}, Normal tt).

(** The framework calls the handler with a fresh reply. *)
Definition invoke {T} (h : Handler T unit) : Reply T * Completion unit :=
  h newReply.

(** The promise of an async handler is rejected exactly when it throws. *)
Definition rejected {A} (c : Completion A) : bool :=
  match c with Throw _ => true | _ => false end.

End Fastify.
Import Fastify.

(** ** The routes

    Each module holds, for one route, the request and response types,
    [request] (the statements of the handler before the service call)
    and [respond] (the statements after it). *)

Definition contractViolation : string := "Result must have an error or value.".

(** [reply.status(status || 500).send(result.error)], the error branch
    that every handler starts its response with. *)
Definition replyError {T} (e : ServiceError) : Handler T unit :=
  status (errorStatus e);; send (PError e).

(** The truthiness of an optional boolean property. *)
Definition isTrue (b : option bool) : bool :=
  match b with Some true => true | _ => false end.

(** GET / *)
Module GetApiInfo.
Definition Request : Type := unit.

Definition request {B} (req : Fastify.Request B) : Request := tt.

Definition respond {T} (result : ServiceResult (ApiInfo T)) : Handler T unit :=
  match error result with
  | Some e => replyError e;; jsReturn
  | None => skip
  end;;
  match value result with
  | Some v => send (PApiInfo v)
  | None => skip
  end.
End GetApiInfo.

(** GET /widgets *)
Module GetWidgets.
Record Request : Type := { query : option string }.

Record Value (T : Types) : Type := { widgets : option (list (Widget T)) }.
Arguments widgets {T} _.

Definition request {B} (req : Fastify.Request B) : Request :=
  match Fastify.query req !! "q" with
  | Some (QString q) => {| query := Some q |}
  | _ => {| query := None |}
  end.

Definition respond {T} (result : ServiceResult (Value T)) : Handler T unit :=
  match error result with
  | Some e => replyError e;; jsReturn
  | None => skip
  end;;
  match value result with
  | Some v => status (Js.VNumber 200);; send (PWidgets (widgets v))
  | None => skip
  end;;
  throw contractViolation.
End GetWidgets.

(** POST /widgets *)
Module CreateWidget.
(** [newWidget] is the property [widget] of the request. *)
Record Request (T : Types) : Type := { newWidget : option (Widget T) }.
Arguments newWidget {T} _.

Record Value (T : Types) : Type := {
  widget : option (Widget T);
  url : option string;
  eTag : option string
}.
Arguments widget {T} _.
Arguments url {T} _.
Arguments eTag {T} _.

Definition request {T} (req : Fastify.Request (option (Widget T))) : Request T :=
  {| newWidget := body req |}.

Definition respond {T} (result : ServiceResult (Value T)) : Handler T unit :=
  match error result with
  | Some e => replyError e;; jsReturn
  | None => skip
  end;;
  match value result with
  | Some v =>
      match url v with
      | Some u => header "Location" u
      | None => skip
      end;;
      match eTag v with
      | Some t => header "eTag" t
      | None => skip
      end;;
      match widget v with
      | Some w => status (Js.VNumber 201);; send (PWidget w)
      | None => skip
      end;;
      jsReturn
  | None => skip
  end;;
  throw contractViolation.
End CreateWidget.

(** GET /widgets/:id *)
Module GetWidget.
Record Request : Type := {
  id : option Number;
  ifNotETag : option string
}.

Record Value (T : Types) : Type := {
  widget : option (Widget T);
  eTag : option string;
  notModified : option bool
}.
Arguments widget {T} _.
Arguments eTag {T} _.
Arguments notModified {T} _.

Definition request {B} (req : Fastify.Request B) : Request :=
  {| id := match params req !! "id" with
           | Some s => Some (parseInt s)
           | None => None
           end;
     ifNotETag := headers req !! "if-none-match" |}.

Definition respond {T} (result : ServiceResult (Value T)) : Handler T unit :=
  match error result with
  | Some e => replyError e;; jsReturn
  | None => skip
  end;;
  match value result with
  | Some v =>
      match eTag v with
      | Some t => header "eTag" t
      | None => skip
      end;;
      match widget v with
      | Some w => status (Js.VNumber 200);; send (PWidget w);; jsReturn
      | None => skip
      end;;
      if isTrue (notModified v) then status (Js.VNumber 304);; jsReturn
      else skip
  | None => skip
  end;;
  throw contractViolation.
End GetWidget.

(** DELETE /widgets/:id *)
Module DeleteWidget.
Record Request : Type := {
  id : option Number;
  ifETag : option string
}.

Record Value : Type := {
  notFound : option bool;
  conflict : option bool
}.

Definition request {B} (req : Fastify.Request B) : Request :=
  {| id := match params req !! "id" with
           | Some s => Some (parseInt s)
           | None => None
           end;
     ifETag := headers req !! "if-match" |}.

Definition respond {T} (result : ServiceResult Value) : Handler T unit :=
  match error result with
  | Some e => replyError e;; jsReturn
  | None => skip
  end;;
  match value result with
  | Some v =>
      (if isTrue (notFound v) then status (Js.VNumber 404);; jsReturn
       else skip);;
      (if isTrue (conflict v) then status (Js.VNumber 409);; jsReturn
       else skip);;
      status (Js.VNumber 204);; send PEmptyObject;;
      jsReturn
  | None => skip
  end;;
  throw contractViolation.
End DeleteWidget.

(** POST /widgets/get *)
Module GetWidgetBatch.
Record Request : Type := { ids : option (list Number) }.

Record Value (T : Types) : Type := { results : option (list (BatchResult T)) }.
Arguments results {T} _.

Definition request (req : Fastify.Request (option (list Number))) : Request :=
  {| ids := body req |}.

Definition respond {T} (result : ServiceResult (Value T)) : Handler T unit :=
  match error result with
  | Some e => replyError e;; jsReturn
  | None => skip
  end;;
  match value result with
  | Some v =>
      match results v with
      | Some rs => status (Js.VNumber 200);; send (PResults rs);; jsReturn
      | None => skip
      end
  | None => skip
  end;;
  throw contractViolation.
End GetWidgetBatch.

(** POST /mirrorFields *)
Module MirrorFieldsRoute.
Definition Request (T : Types) : Type := MirrorFields T.

(** Reading [.field] of a missing body is a TypeError: no request. *)
Definition request {T} (req : Fastify.Request (option (MirrorFields T)))
  : option (Request T) :=
  match body req with
  | Some b => Some {| field := field b; matrix := matrix b |}
  | None => None
  end.

Definition respond {T} (result : ServiceResult (MirrorFields T)) : Handler T unit :=
  match error result with
  | Some e => replyError e;; jsReturn
  | None => skip
  end;;
  match value result with
  | Some v => status (Js.VNumber 200);; send (PMirror v);; jsReturn
  | None => skip
  end;;
  throw contractViolation.
End MirrorFieldsRoute.

(** The request of the two check routes. [f_string] is the property
    [string] of the request, and so on for the eight properties. *)
Record CheckFields : Type := {
  f_string : option string;
  f_boolean : option bool;
  f_double : option Number;
  f_int32 : option Number;
  f_int64 : option Number;
  f_decimal : option Number;
  f_enum : option string;
  f_datetime : option string
}.

(** GET /checkQuery *)
Module CheckQuery.
Definition Request : Type := CheckFields.

(** [query[name]] when [typeof query[name] === "string"]. *)
Definition param (query : gmap string QueryValue) (name : string) : option string :=
  match query !! name with
  | Some (QString s) => Some s
  | _ => None
  end.

Definition request {B} (req : Fastify.Request B) : Request :=
  let query := Fastify.query req in
  {| f_string := match param query "string" with Some s => Some s | None => None end;
     f_boolean := match param query "boolean" with Some s => parseBoolean s | None => None end;
     f_double := match param query "double" with Some s => Some (parseFloat s) | None => None end;
     f_int32 := match param query "int32" with Some s => Some (parseInt s) | None => None end;
     f_int64 := match param query "int64" with Some s => Some (parseInt s) | None => None end;
     f_decimal := match param query "decimal" with Some s => Some (parseFloat s) | None => None end;
     f_enum := match param query "enum" with Some s => Some s | None => None end;
     f_datetime := match param query "datetime" with Some s => Some s | None => None end |}.

Definition respond {T} (result : ServiceResult (CheckResponse T)) : Handler T unit :=
  match error result with
  | Some e => replyError e;; jsReturn
  | None => skip
  end;;
  match value result with
  | Some v => status (Js.VNumber 200);; send (PCheck v)
  | None => skip
  end;;
  throw contractViolation.
End CheckQuery.

(** GET /checkPath/:string/:boolean/:double/:int32/:int64/:decimal/:enum/:datetime *)
Module CheckPath.
Definition Request : Type := CheckFields.

Definition request {B} (req : Fastify.Request B) : Request :=
  let params := Fastify.params req in
  {| f_string := match params !! "string" with Some s => Some s | None => None end;
     f_boolean := match params !! "boolean" with Some s => parseBoolean s | None => None end;
     f_double := match params !! "double" with Some s => Some (parseFloat s) | None => None end;
     f_int32 := match params !! "int32" with Some s => Some (parseInt s) | None => None end;
     f_int64 := match params !! "int64" with Some s => Some (parseInt s) | None => None end;
     f_decimal := match params !! "decimal" with Some s => Some (parseFloat s) | None => None end;
     f_enum := match params !! "enum" with Some s => Some s | None => None end;
     f_datetime := match params !! "datetime" with Some s => Some s | None => None end |}.

Definition respond {T} (result : ServiceResult (CheckResponse T)) : Handler T unit :=
  match error result with
  | Some e => replyError e;; jsReturn
  | None => skip
  end;;
  match value result with
  | Some v => status (Js.VNumber 200);; send (PCheck v)
  | None => skip
  end;;
  throw contractViolation.
End CheckPath.

(** ** The plugin *)

(** Modelled from the spec: the interface [IConformanceApi], one method
    for each route, from the typed request to the result. A method
    stands for one awaited call: it gives the result the call resolves
    to. *)
Record IConformanceApi (T : Types) : Type := {
  getApiInfo : GetApiInfo.Request -> ServiceResult (ApiInfo T);
  getWidgets : GetWidgets.Request -> ServiceResult (GetWidgets.Value T);
  createWidget : CreateWidget.Request T -> ServiceResult (CreateWidget.Value T);
  getWidget : GetWidget.Request -> ServiceResult (GetWidget.Value T);
  deleteWidget : DeleteWidget.Request -> ServiceResult DeleteWidget.Value;
  getWidgetBatch : GetWidgetBatch.Request -> ServiceResult (GetWidgetBatch.Value T);
  mirrorFields : MirrorFieldsRoute.Request T -> ServiceResult (MirrorFields T);
  checkQuery : CheckQuery.Request -> ServiceResult (CheckResponse T);
  checkPath : CheckPath.Request -> ServiceResult (CheckResponse T)
}.
Arguments getApiInfo {T} _ _.
Arguments getWidgets {T} _ _.
Arguments createWidget {T} _ _.
Arguments getWidget {T} _ _.
Arguments deleteWidget {T} _ _.
Arguments getWidgetBatch {T} _ _.
Arguments mirrorFields {T} _ _.
Arguments checkQuery {T} _ _.
Arguments checkPath {T} _ _.

Section Plugin.
Context {T : Types} (api : IConformanceApi T).

Definition getApiInfoHandler {B} (req : Fastify.Request B) : Handler T unit :=
  GetApiInfo.respond (getApiInfo api (GetApiInfo.request req)).

Definition getWidgetsHandler {B} (req : Fastify.Request B) : Handler T unit :=
  GetWidgets.respond (getWidgets api (GetWidgets.request req)).

Definition createWidgetHandler (req : Fastify.Request (option (Widget T)))
  : Handler T unit :=
  CreateWidget.respond (createWidget api (CreateWidget.request req)).

Definition getWidgetHandler {B} (req : Fastify.Request B) : Handler T unit :=
  GetWidget.respond (getWidget api (GetWidget.request req)).

Definition deleteWidgetHandler {B} (req : Fastify.Request B) : Handler T unit :=
  DeleteWidget.respond (deleteWidget api (DeleteWidget.request req)).

Definition getWidgetBatchHandler (req : Fastify.Request (option (list Number)))
  : Handler T unit :=
  GetWidgetBatch.respond (getWidgetBatch api (GetWidgetBatch.request req)).

Definition mirrorFieldsHandler (req : Fastify.Request (option (MirrorFields T)))
  : Handler T unit :=
  match MirrorFieldsRoute.request req with
  | Some request => MirrorFieldsRoute.respond (mirrorFields api request)
  | None => throw "Cannot read properties of undefined (reading 'field')"
  end.

Definition checkQueryHandler {B} (req : Fastify.Request B) : Handler T unit :=
  CheckQuery.respond (checkQuery api (CheckQuery.request req)).

Definition checkPathHandler {B} (req : Fastify.Request B) : Handler T unit :=
  CheckPath.respond (checkPath api (CheckPath.request req)).
End Plugin.

(** The result of a service call together with the route it was made
    for, and the response the route's handler shapes from it. *)
Inductive RouteResult (T : Types) : Type :=
| OfGetApiInfo (r : ServiceResult (ApiInfo T))
| OfGetWidgets (r : ServiceResult (GetWidgets.Value T))
| OfCreateWidget (r : ServiceResult (CreateWidget.Value T))
| OfGetWidget (r : ServiceResult (GetWidget.Value T))
| OfDeleteWidget (r : ServiceResult DeleteWidget.Value)
| OfGetWidgetBatch (r : ServiceResult (GetWidgetBatch.Value T))
| OfMirrorFields (r : ServiceResult (MirrorFields T))
| OfCheckQuery (r : ServiceResult (CheckResponse T))
| OfCheckPath (r : ServiceResult (CheckResponse T)).
Arguments OfGetApiInfo {T} _.
Arguments OfGetWidgets {T} _.
Arguments OfCreateWidget {T} _.
Arguments OfGetWidget {T} _.
Arguments OfDeleteWidget {T} _.
Arguments OfGetWidgetBatch {T} _.
Arguments OfMirrorFields {T} _.
Arguments OfCheckQuery {T} _.
Arguments OfCheckPath {T} _.

Definition respond {T} (rr : RouteResult T) : Handler T unit :=
  match rr with
  | OfGetApiInfo r => GetApiInfo.respond r
  | OfGetWidgets r => GetWidgets.respond r
  | OfCreateWidget r => CreateWidget.respond r
  | OfGetWidget r => GetWidget.respond r
  | OfDeleteWidget r => DeleteWidget.respond r
  | OfGetWidgetBatch r => GetWidgetBatch.respond r
  | OfMirrorFields r => MirrorFieldsRoute.respond r
  | OfCheckQuery r => CheckQuery.respond r
  | OfCheckPath r => CheckPath.respond r
  end.

Definition errorArm {T} (rr : RouteResult T) : option ServiceError :=
  match rr with
  | OfGetApiInfo r => error r
  | OfGetWidgets r => error r
  | OfCreateWidget r => error r
  | OfGetWidget r => error r
  | OfDeleteWidget r => error r
  | OfGetWidgetBatch r => error r
  | OfMirrorFields r => error r
  | OfCheckQuery r => error r
  | OfCheckPath r => error r
  end.

Definition isSome {A} (o : option A) : bool :=
  match o with Some _ => true | None => false end.

Definition valueArm {T} (rr : RouteResult T) : bool :=
  match rr with
  | OfGetApiInfo r => isSome (value r)
  | OfGetWidgets r => isSome (value r)
  | OfCreateWidget r => isSome (value r)
  | OfGetWidget r => isSome (value r)
  | OfDeleteWidget r => isSome (value r)
  | OfGetWidgetBatch r => isSome (value r)
  | OfMirrorFields r => isSome (value r)
  | OfCheckQuery r => isSome (value r)
  | OfCheckPath r => isSome (value r)
  end.

(** ** Vocabulary of the properties *)

Definition isGetApiInfo {T} (rr : RouteResult T) : bool :=
  match rr with OfGetApiInfo _ => true | _ => false end.

(** [boundFrom raw coerce fld]: the field is the coercion of the raw
    parameter when that is a string, and unset otherwise. *)
Definition boundFrom {A} (raw : option QueryValue) (coerce : string -> option A)
    (fld : option A) : Prop :=
  match raw with
  | Some (QString s) => fld = coerce s
  | _ => fld = None
  end.

(** [setFrom raw coerce fld]: the field is set, to the coercion of the
    raw parameter, when that is a string, and unset otherwise. *)
Definition setFrom {A} (raw : option QueryValue) (coerce : string -> A)
    (fld : option A) : Prop :=
  match raw with
  | Some (QString s) => fld = Some (coerce s)
  | _ => fld = None
  end.

(** The names of the eight typed parameters of the check routes. *)
Definition checkNames : list string :=
  ["string"; "boolean"; "double"; "int32"; "int64"; "decimal"; "enum"; "datetime"].

(** Whether [parseInt] reads [s] in radix 16. *)
Definition hexPrefixed (s : string) : bool :=
  let '(_, s1) := takeSign (trimStart s) in
  startsWith "0x" s1 || startsWith "0X" s1.

(** The int32/int64 coercion in the specification's words: a base-10
    integer parse of the integer prefix. *)
Definition base10PrefixParse (s : string) : Number :=
  let '(neg, s1) := takeSign (trimStart s) in
  let '(count, mathInt, _) := takeDigits 10 s1 0 0 in
  if count =? 0 then NaN else ofInteger neg mathInt.

Fixpoint allDigits (s : string) : bool :=
  match s with
  | String c s' => isDigit c && allDigits s'
  | EmptyString => true
  end.

(** The value of a string of decimal digits, onto the accumulator. *)
Fixpoint decimalValue (acc : Z) (s : string) : Z :=
  match s with
  | String c s' => decimalValue (acc * 10 + (charCode c - 48)) s'
  | EmptyString => acc
  end.

(** The status codes the value branch of a route's handler can set. *)
Definition routeStatuses {T} (rr : RouteResult T) : list Z :=
  match rr with
  | OfGetApiInfo _ => []
  | OfGetWidgets _ => [200]
  | OfCreateWidget _ => [201]
  | OfGetWidget _ => [200; 304]
  | OfDeleteWidget _ => [404; 409; 204]
  | OfGetWidgetBatch _ => [200]
  | OfMirrorFields _ => [200]
  | OfCheckQuery _ => [200]
  | OfCheckPath _ => [200]
  end.

(** The header names a route's handler can set. *)
Definition routeHeaders {T} (rr : RouteResult T) : list string :=
  match rr with
  | OfCreateWidget _ => ["Location"; "eTag"]
  | OfGetWidget _ => ["eTag"]
  | _ => []
  end.

(** The sign prefix of a numeric string. *)
Definition signPrefix (neg : bool) : string := if neg then "-" else "".

(** Whether [rest] ends a decimal integer that precedes it: it is empty
    or starts with a character that is neither a digit nor [x] or [X]. *)
Definition stopsInteger (rest : string) : bool :=
  match rest with
  | String c _ =>
      negb (isDigit c) && negb (Ascii.eqb c "x") && negb (Ascii.eqb c "X")
  | EmptyString => true
  end.

Fixpoint allWhiteSpace (s : string) : bool :=
  match s with
  | String c s' => isWhiteSpace c && allWhiteSpace s'
  | EmptyString => true
  end.


(** The digits of radix 16 and their values, as the language defines
    them: [0]-[9], [a]-[f] and [A]-[F]. *)
Definition isHexDigit (c : ascii) : bool :=
  let n := charCode c in
  ((48 <=? n) && (n <=? 57)) || ((97 <=? n) && (n <=? 102))
  || ((65 <=? n) && (n <=? 70)).

Definition hexDigitValue (c : ascii) : Z :=
  let n := charCode c in
  if n <=? 57 then n - 48 else if n <=? 70 then n - 55 else n - 87.

Fixpoint allHexDigits (s : string) : bool :=
  match s with
  | String c s' => isHexDigit c && allHexDigits s'
  | EmptyString => true
  end.

(** The value of a string of hexadecimal digits, onto the accumulator. *)
Fixpoint hexValue (acc : Z) (s : string) : Z :=
  match s with
  | String c s' => hexValue (acc * 16 + hexDigitValue c) s'
  | EmptyString => acc
  end.

(** Whether [rest] ends a hexadecimal integer that precedes it. *)
Definition stopsHex (rest : string) : bool :=
  match rest with
  | String c _ => negb (isHexDigit c)
  | EmptyString => true
  end.

(** The two spellings of the radix prefix. *)
Definition radixPrefix (upper : bool) : string := if upper then "0X" else "0x".

(** ** A small instance for examples *)

Module Fixture.
Definition T : Types :=
  {| ApiInfo := string; Widget := Z * string; BatchResult := option (Z * string);
     Any := string; CheckResponse := CheckFields |}.

Definition errorOf (c : option string) : ServiceError :=
  {| code := c; message := None |}.

Definition failed {V} (c : option string) : ServiceResult V :=
  {| error := Some (errorOf c); value := None |}.

Definition succeeded {V} (v : V) : ServiceResult V :=
  {| error := None; value := Some v |}.

Definition neither {V} : ServiceResult V :=
  {| error := None; value := None |}.

Definition shiny : Widget T := (1, "shiny").

Definition one : Number := Finite false 1 0.

(** A service holding the single widget [shiny], of version "1". *)
Definition getWidgetOf (r : GetWidget.Request) : ServiceResult (GetWidget.Value T) :=
  match GetWidget.id r with
  | Some n =>
      if Number_eqb n one then
        match GetWidget.ifNotETag r with
        | Some "1" =>
            succeeded {| GetWidget.widget := None; GetWidget.eTag := None;
                         GetWidget.notModified := Some true |}
        | _ =>
            succeeded {| GetWidget.widget := Some shiny;
                         GetWidget.eTag := Some "1";
                         GetWidget.notModified := None |}
        end
      else failed (Some "NotFound")
  | None => failed (Some "InvalidRequest")
  end.

Definition deleteWidgetOf (r : DeleteWidget.Request) : ServiceResult DeleteWidget.Value :=
  match DeleteWidget.id r with
  | Some n =>
      if Number_eqb n one then
        match DeleteWidget.ifETag r with
        | None | Some "1" =>
            succeeded {| DeleteWidget.notFound := None;
                         DeleteWidget.conflict := None |}
        | _ =>
            succeeded {| DeleteWidget.notFound := None;
                         DeleteWidget.conflict := Some true |}
        end
      else succeeded {| DeleteWidget.notFound := Some true;
                        DeleteWidget.conflict := None |}
  | None => failed (Some "InvalidRequest")
  end.

Definition createWidgetOf (r : CreateWidget.Request T)
  : ServiceResult (CreateWidget.Value T) :=
  succeeded {| CreateWidget.widget := CreateWidget.newWidget r;
               CreateWidget.url := Some "/widgets/1";
               CreateWidget.eTag := Some "1" |}.

(** A service holding the single widget [shiny], of version "1". *)
Definition api : IConformanceApi T :=
  Build_IConformanceApi T
    (fun _ => succeeded ("conformance" : ApiInfo T))
    (fun _ => succeeded {| GetWidgets.widgets := Some [shiny] |})
    createWidgetOf
    getWidgetOf
    deleteWidgetOf
    (fun _ => neither)
    (fun r => succeeded r)
    (fun r => succeeded (r : CheckResponse T))
    (fun r => succeeded (r : CheckResponse T)).

Definition withHeaders {B} (hs : list (string * string)) (req : Fastify.Request B)
  : Fastify.Request B :=
  {| Fastify.query := Fastify.query req; Fastify.params := Fastify.params req;
     Fastify.headers := list_to_map hs; Fastify.body := Fastify.body req |}.

Definition get (query : list (string * QueryValue)) (params : list (string * string))
  : Fastify.Request unit :=
  {| Fastify.query := list_to_map query; Fastify.params := list_to_map params;
     Fastify.headers := ∅; Fastify.body := tt |}.
End Fixture.

(** The same service, answering the batch lookup for each id in turn. *)
Module BatchFixture.
Definition lookup (n : Number) : BatchResult Fixture.T :=
  if Number_eqb n Fixture.one then Some Fixture.shiny else None.

Definition getWidgetBatchOf (r : GetWidgetBatch.Request)
  : ServiceResult (GetWidgetBatch.Value Fixture.T) :=
  match GetWidgetBatch.ids r with
  | Some ids => Fixture.succeeded {| GetWidgetBatch.results := Some (lookup <$> ids) |}
  | None => Fixture.failed (Some "InvalidRequest")
  end.

Definition api : IConformanceApi Fixture.T :=
  Build_IConformanceApi Fixture.T
    (getApiInfo Fixture.api) (getWidgets Fixture.api)
    (createWidget Fixture.api) (getWidget Fixture.api)
    (deleteWidget Fixture.api) getWidgetBatchOf
    (mirrorFields Fixture.api) (checkQuery Fixture.api)
    (checkPath Fixture.api).

Definition post {B} (b : B) : Fastify.Request B :=
  {| Fastify.query := ∅; Fastify.params := ∅; Fastify.headers := ∅;
     Fastify.body := b |}.

Definition mirrored : MirrorFields Fixture.T :=
  Build_MirrorFields Fixture.T (Some "x") (Some [[[Fixture.one]]]).
End BatchFixture.

(** * Properties *)

(** ** Running handlers *)

Ltac run_handler :=
  unfold invoke, respond, GetApiInfo.respond, GetWidgets.respond,
    CreateWidget.respond, GetWidget.respond, DeleteWidget.respond,
    GetWidgetBatch.respond, MirrorFieldsRoute.respond, CheckQuery.respond,
    CheckPath.respond, replyError, skip, jsReturn, throw, status, header, send,
    mbind, mret, handler_bind, handler_ret, newReply;
  cbn.

(** The error branch is the same statement list in all nine handlers:
    when [reply.status] accepts the status, the error is sent and the
    handler returns; otherwise the handler throws with the reply
    untouched. *)
Lemma error_response {T} (rr : RouteResult T) (e : ServiceError) :
  errorArm rr = Some e ->
  invoke (respond rr)
  = if validStatus (errorStatus e)
    then ({| statusCode := Some (errorStatus e); replyHeaders := [];
             sent := [PError e] |}, Return)
    else (newReply, Throw badStatusCode).
Proof.
  destruct rr as [r|r|r|r|r|r|r|r|r]; cbn [errorArm]; intros H;
    run_handler; rewrite H; cbn;
    destruct (validStatus (errorStatus e)); reflexivity.
Qed.

(** ** The coercions on sample inputs *)

Example parseInt_samples :
  parseInt "42" = Finite false 42 0
  /\ parseInt "  -17.9abc" = Finite true 17 0
  /\ parseInt "0x1F" = Finite false 31 0
  /\ parseInt "-0" = Finite true 0 0
  /\ parseInt "" = NaN
  /\ parseInt "0x" = NaN
  /\ parseInt "9007199254740993" = Finite false 9007199254740992 0.
Proof. vm_compute. repeat split. Qed.

Example parseFloat_samples :
  parseFloat "0.1" = Finite false 3602879701896397 (-55)
  /\ parseFloat ".5" = Finite false 1 (-1)
  /\ parseFloat "5.e3x" = Finite false 5000 0
  /\ parseFloat "1e23" = Finite false 99999999999999991611392 0
  /\ parseFloat "5e-324" = Finite false 1 (-1074)
  /\ parseFloat "2e-324" = Finite false 0 0
  /\ parseFloat "1e309" = Infinity false
  /\ parseFloat "-Infinity" = Infinity true
  /\ parseFloat "." = NaN.
Proof. vm_compute. repeat split. Qed.

Example parseBoolean_samples :
  parseBoolean "TRUE" = Some true
  /\ parseBoolean "False" = Some false
  /\ parseBoolean "yes" = None
  /\ parseBoolean "" = None.
Proof. vm_compute. repeat split. Qed.

(** ** The error table *)

Lemma standardErrorCodes_entries (c : string) (n : Z) :
  standardErrorCodes !! c = Some n -> (c, n) ∈ errorTable.
Proof. apply elem_of_list_to_map_2. Qed.

Lemma standardErrorCodes_nonzero (c : string) (n : Z) :
  standardErrorCodes !! c = Some n -> n <> 0.
Proof.
  intros H%standardErrorCodes_entries. unfold errorTable in H.
  repeat (apply elem_of_cons in H as [[= _ ->]|H]; [lia|]).
  by apply elem_of_nil in H.
Qed.

(** Each code of the table is answered with its status, for any message. *)
Lemma errorStatus_known (c : string) (n : Z) (msg : option string) :
  (c, n) ∈ errorTable ->
  errorStatus {| code := Some c; message := msg |} = Js.VNumber n.
Proof.
  unfold errorTable. intros H.
  repeat (apply elem_of_cons in H as [[= -> ->]|H]; [vm_compute; reflexivity|]).
  by apply elem_of_nil in H.
Qed.

(** A code that is neither in the table nor a name inherited from
    [Object.prototype], and a missing code, are answered with 500. *)
Lemma errorStatus_default (e : ServiceError) :
  (forall c, code e = Some c ->
     standardErrorCodes !! c = None /\ c ∉ Js.objectPrototypeKeys) ->
  errorStatus e = Js.VNumber 500.
Proof.
  intros H. unfold errorStatus, errorStatusLookup.
  destruct (code e) as [c|]; [|reflexivity].
  destruct (H c eq_refl) as [Hnone Hnot].
  unfold Js.truthy at 2. destruct (String.eqb c "") eqn:Hc; cbn [negb].
  - cbn [Js.truthy]. rewrite Hc. reflexivity.
  - unfold Js.getProperty. rewrite Hnone.
    rewrite bool_decide_eq_false_2 by assumption. reflexivity.
Qed.

Lemma errorStatus_inherited (e : ServiceError) (k : string) :
  code e = Some k -> k ∈ Js.objectPrototypeKeys ->
  standardErrorCodes !! k = None /\ errorStatus e = Js.VInherited k.
Proof.
  intros Hcode Hk. unfold errorStatus, errorStatusLookup. rewrite Hcode.
  unfold Js.objectPrototypeKeys in Hk.
  repeat (apply elem_of_cons in Hk as [->|Hk]; [split; vm_compute; reflexivity|]).
  by apply elem_of_nil in Hk.
Qed.

(** No handler passes a string to [reply.status]. *)
Lemma errorStatus_not_string (e : ServiceError) (s : string) :
  errorStatus e <> Js.VString s.
Proof.
  unfold errorStatus, errorStatusLookup.
  destruct (code e) as [c|]; [|discriminate].
  change (Js.truthy (Js.VString c)) with (negb (String.eqb c "")).
  destruct (String.eqb c "") eqn:Hc; cbn [negb].
  - cbn [Js.truthy]. rewrite Hc. discriminate.
  - unfold Js.getProperty.
    destruct (standardErrorCodes !! c) as [n|].
    + destruct (Js.truthy (Js.VNumber n)); discriminate.
    + destruct (bool_decide (c ∈ Js.objectPrototypeKeys)); cbn; discriminate.
Qed.

(** C1: in every handler, an error whose code is a property name that
    the table object inherits from [Object.prototype] (such as
    [constructor]) is not answered with status 500 and the error as the
    body, although the code is not one of the eleven of the table: the
    inherited member itself is passed to [reply.status], which throws,
    so that no status is set, nothing is sent and the handler is
    rejected. *)
Theorem error_status_inherited_code {T} (rr : RouteResult T) (e : ServiceError)
    (k : string) :
  errorArm rr = Some e ->
  code e = Some k ->
  k ∈ Js.objectPrototypeKeys ->
  standardErrorCodes !! k = None
  /\ errorStatus e = Js.VInherited k
  /\ invoke (respond rr) = (newReply, Throw badStatusCode).
Proof.
  intros Harm Hcode Hk.
  destruct (errorStatus_inherited e k Hcode Hk) as [Hnone Hstatus].
  split; [exact Hnone|]. split; [exact Hstatus|].
  rewrite (error_response rr e Harm), Hstatus. reflexivity.
Qed.

Lemma error_status_inherited_code_witness :
  errorStatus (Fixture.errorOf (Some "constructor")) = Js.VInherited "constructor"
  /\ invoke (respond (T := Fixture.T) (OfGetApiInfo (Fixture.failed (Some "constructor"))))
     = (newReply, Throw badStatusCode).
Proof.
  apply (error_status_inherited_code
           (OfGetApiInfo (Fixture.failed (Some "constructor")))
           (Fixture.errorOf (Some "constructor")) "constructor").
  - reflexivity.
  - reflexivity.
  - vm_compute. left.
Defined.

(** ** Results with neither arm *)

(** Eight of the nine handlers end in the throw statement. *)
Lemma neither_arm_throws {T} (rr : RouteResult T) :
  errorArm rr = None -> valueArm rr = false -> isGetApiInfo rr = false ->
  invoke (respond rr) = (newReply, Throw contractViolation).
Proof.
  destruct rr as [r|r|r|r|r|r|r|r|r]; cbn [errorArm valueArm isGetApiInfo];
    intros He Hv Hi; try discriminate Hi;
    run_handler; rewrite He; destruct (value r); try discriminate Hv;
    reflexivity.
Qed.

(** C2: the handler of GET / completes normally on a result with neither
    arm: nothing is set, nothing is sent, and nothing is thrown. *)
Theorem getApiInfo_neither_arm_completes {T} :
  invoke (GetApiInfo.respond (T := T) {| error := None; value := None |})
  = (newReply, Normal tt)
  /\ rejected (snd (invoke (GetApiInfo.respond (T := T)
                              {| error := None; value := None |}))) = false.
Proof. split; reflexivity. Qed.

(** ** Results with a value *)

(** C5: on a result with a value, the handlers of GET /widgets,
    GET /checkQuery and GET /checkPath set status 200 and send the body,
    and then, having no [return] in that branch, throw the contract
    violation. *)
Theorem value_branch_falls_through {T} :
  (forall v : GetWidgets.Value T,
     invoke (GetWidgets.respond {| error := None; value := Some v |})
     = ({| statusCode := Some (Js.VNumber 200); replyHeaders := [];
           sent := [PWidgets (GetWidgets.widgets v)] |},
        Throw contractViolation))
  /\ (forall v : CheckResponse T,
        invoke (CheckQuery.respond {| error := None; value := Some v |})
        = ({| statusCode := Some (Js.VNumber 200); replyHeaders := [];
              sent := [PCheck v] |},
           Throw contractViolation))
  /\ (forall v : CheckResponse T,
        invoke (CheckPath.respond {| error := None; value := Some v |})
        = ({| statusCode := Some (Js.VNumber 200); replyHeaders := [];
              sent := [PCheck v] |},
           Throw contractViolation)).
Proof. repeat split. Qed.


(** What the handler of POST /widgets does with a value. *)
Lemma createWidget_value_response {T} (v : CreateWidget.Value T) :
  invoke (CreateWidget.respond {| error := None; value := Some v |})
  = ({| statusCode := match CreateWidget.widget v with
                      | Some _ => Some (Js.VNumber 201)
                      | None => None
                      end;
        replyHeaders :=
          match CreateWidget.url v with
          | Some u => [("Location", u)]
          | None => []
          end ++
          match CreateWidget.eTag v with
          | Some t => [("eTag", t)]
          | None => []
          end;
        sent := match CreateWidget.widget v with
                | Some w => [PWidget w]
                | None => []
                end |}, Return).
Proof.
  run_handler.
  destruct (CreateWidget.url v), (CreateWidget.eTag v), (CreateWidget.widget v);
    reflexivity.
Qed.





(** ** GET /widgets/:id and DELETE /widgets/:id *)

(** C6: for GET /widgets/:id, the request carries the If-None-Match
    header as [ifNotETag]; on a value, the eTag header is set when [eTag]
    is set, then a widget is sent with status 200, and otherwise a true
    [notModified] gives status 304 and no body. *)
Theorem getWidget_value_response {T B} (api : IConformanceApi T)
    (req : Fastify.Request B) (v : GetWidget.Value T) :
  getWidget api (GetWidget.request req) = {| error := None; value := Some v |} ->
  let reply := fst (invoke (getWidgetHandler api req)) in
  let completion := snd (invoke (getWidgetHandler api req)) in
  GetWidget.ifNotETag (GetWidget.request req) = headers req !! "if-none-match"
  /\ replyHeaders reply
     = match GetWidget.eTag v with Some t => [("eTag", t)] | None => [] end
  /\ match GetWidget.widget v with
     | Some w =>
         statusCode reply = Some (Js.VNumber 200) /\ sent reply = [PWidget w]
         /\ completion = Return
     | None =>
         GetWidget.notModified v = Some true ->
         statusCode reply = Some (Js.VNumber 304) /\ sent reply = []
         /\ completion = Return
     end.
Proof.
  intros Hres reply completion. subst reply completion.
  unfold getWidgetHandler. rewrite Hres. run_handler.
  split; [reflexivity|].
  destruct (GetWidget.eTag v), (GetWidget.widget v),
    (GetWidget.notModified v) as [[|]|]; cbn;
    (split; [reflexivity|]); try (repeat split; reflexivity);
    intros [=].
Qed.

(** C7: for DELETE /widgets/:id, on a value, [notFound] is checked first
    and gives 404, then [conflict] gives 409, and otherwise the status is
    204 and the empty object is sent. *)
Theorem deleteWidget_value_response {T B} (api : IConformanceApi T)
    (req : Fastify.Request B) (v : DeleteWidget.Value) :
  deleteWidget api (DeleteWidget.request req)
  = {| error := None; value := Some v |} ->
  invoke (deleteWidgetHandler api req)
  = if isTrue (DeleteWidget.notFound v)
    then ({| statusCode := Some (Js.VNumber 404); replyHeaders := [];
             sent := [] |}, Return)
    else if isTrue (DeleteWidget.conflict v)
    then ({| statusCode := Some (Js.VNumber 409); replyHeaders := [];
             sent := [] |}, Return)
    else ({| statusCode := Some (Js.VNumber 204); replyHeaders := [];
             sent := [PEmptyObject] |}, Return).
Proof.
  intros Hres. unfold deleteWidgetHandler. rewrite Hres. run_handler.
  destruct (isTrue (DeleteWidget.notFound v)),
    (isTrue (DeleteWidget.conflict v)); reflexivity.
Qed.

Lemma getWidget_value_response_witness :
  let req := Fixture.withHeaders [("if-none-match", "1")]
               (Fixture.get [] [("id", "1")]) in
  statusCode (fst (invoke (getWidgetHandler Fixture.api req)))
  = Some (Js.VNumber 304)
  /\ sent (fst (invoke (getWidgetHandler Fixture.api req))) = [].
Proof.
  intros req.
  pose proof (getWidget_value_response Fixture.api req
    {| GetWidget.widget := None; GetWidget.eTag := None;
       GetWidget.notModified := Some true |}) as H.
  destruct H as (_ & _ & H); [vm_compute; reflexivity|].
  destruct (H eq_refl) as (Hs & Hb & _). split; assumption.
Defined.

Lemma deleteWidget_value_response_witness :
  let req := Fixture.withHeaders [("if-match", "7")]
               (Fixture.get [] [("id", "1")]) in
  invoke (deleteWidgetHandler Fixture.api req)
  = ({| statusCode := Some (Js.VNumber 409); replyHeaders := []; sent := [] |},
     Return).
Proof.
  intros req.
  apply (deleteWidget_value_response Fixture.api req
    {| DeleteWidget.notFound := None; DeleteWidget.conflict := Some true |}).
  vm_compute. reflexivity.
Defined.

(** ** The request binders *)

(** C4, as stated, fails: the segment [abc] of GET /widgets/abc does not
    parse, and the [id] of the request is set, to NaN. *)
Lemma getWidget_unparsed_id_is_set :
  let req := Fixture.get [] [("id", "abc")] in
  parseInt "abc" = NaN
  /\ GetWidget.id (GetWidget.request req) = Some NaN
  /\ GetWidget.id (GetWidget.request req) <> None.
Proof. vm_compute. repeat split. discriminate. Qed.

(** C4, amended: when the raw segment of a path-bound numeric field does
    not parse, the field is set to NaN, and the request with that field
    is passed to the service method, whose result is shaped as usual. *)
Theorem path_number_unparsed_is_NaN {T B} (api : IConformanceApi T)
    (req : Fastify.Request B) :
  (forall s, params req !! "id" = Some s -> parseInt s = NaN ->
     GetWidget.id (GetWidget.request req) = Some NaN
     /\ DeleteWidget.id (DeleteWidget.request req) = Some NaN
     /\ getWidgetHandler api req
        = GetWidget.respond
            (getWidget api {| GetWidget.id := Some NaN;
                              GetWidget.ifNotETag := headers req !! "if-none-match" |})
     /\ deleteWidgetHandler api req
        = DeleteWidget.respond
            (deleteWidget api {| DeleteWidget.id := Some NaN;
                                 DeleteWidget.ifETag := headers req !! "if-match" |}))
  /\ (forall s, params req !! "double" = Some s -> parseFloat s = NaN ->
        f_double (CheckPath.request req) = Some NaN)
  /\ (forall s, params req !! "int32" = Some s -> parseInt s = NaN ->
        f_int32 (CheckPath.request req) = Some NaN)
  /\ (forall s, params req !! "int64" = Some s -> parseInt s = NaN ->
        f_int64 (CheckPath.request req) = Some NaN)
  /\ (forall s, params req !! "decimal" = Some s -> parseFloat s = NaN ->
        f_decimal (CheckPath.request req) = Some NaN)
  /\ checkPathHandler api req
     = CheckPath.respond (checkPath api (CheckPath.request req)).
Proof.
  repeat split; intros;
    unfold getWidgetHandler, deleteWidgetHandler, GetWidget.request,
      DeleteWidget.request, CheckPath.request; cbn;
    repeat match goal with
           | Hs : params req !! _ = Some _ |- _ => rewrite Hs; clear Hs
           | Hnan : _ = NaN |- _ => rewrite Hnan; clear Hnan
           end;
    reflexivity.
Qed.

Lemma path_number_unparsed_is_NaN_witness :
  let req := Fixture.get [] [("id", "abc"); ("double", "."); ("int32", "x1");
                             ("int64", "-"); ("decimal", "e5")] in
  GetWidget.id (GetWidget.request req) = Some NaN
  /\ DeleteWidget.id (DeleteWidget.request req) = Some NaN
  /\ f_double (CheckPath.request req) = Some NaN
  /\ f_int32 (CheckPath.request req) = Some NaN
  /\ f_int64 (CheckPath.request req) = Some NaN
  /\ f_decimal (CheckPath.request req) = Some NaN.
Proof.
  intros req.
  destruct (path_number_unparsed_is_NaN Fixture.api req)
    as (Hid & Hdouble & Hint32 & Hint64 & Hdecimal & _).
  destruct (Hid "abc") as (Hget & Hdelete & _);
    [vm_compute; reflexivity | vm_compute; reflexivity |].
  split; [exact Hget|]. split; [exact Hdelete|].
  split; [apply (Hdouble "."); vm_compute; reflexivity|].
  split; [apply (Hint32 "x1"); vm_compute; reflexivity|].
  split; [apply (Hint64 "-"); vm_compute; reflexivity|].
  apply (Hdecimal "e5"); vm_compute; reflexivity.
Defined.

(** A boolean segment that does not parse leaves its field unset. *)
Lemma path_boolean_unparsed_is_unset {B} (req : Fastify.Request B) (s : string) :
  params req !! "boolean" = Some s -> parseBoolean s = None ->
  f_boolean (CheckPath.request req) = None.
Proof. intros Hs Hnone. cbn. rewrite Hs. exact Hnone. Qed.

(** C8, as stated, fails: the empty parameter of GET /widgets?q= sets the
    [query] of the request, and the empty [int32] of GET /checkQuery is
    coerced, to NaN. *)
Lemma empty_query_parameter_is_set :
  let req := Fixture.get [("q", QString ""); ("int32", QString "")] [] in
  GetWidgets.query (GetWidgets.request req) = Some ""
  /\ f_int32 (CheckQuery.request req) = Some NaN.
Proof. vm_compute. split; reflexivity. Qed.

(** C8, amended: the [query] of GET /widgets and the string, double,
    int32, int64, decimal, enum and datetime fields of GET /checkQuery
    are coerced and set when the named parameter is present as a string,
    the empty string included; the boolean field is set, to the parsed
    value, when the parameter is a string that spells true or false in
    any letter case, and is left unset for any other string; every field
    is left unset when its parameter is absent or repeated. *)
Theorem query_fields_bound {B} (req : Fastify.Request B) :
  let q := Fastify.query req in
  let r := CheckQuery.request req in
  setFrom (q !! "q") id (GetWidgets.query (GetWidgets.request req))
  /\ setFrom (q !! "string") id (f_string r)
  /\ setFrom (q !! "double") parseFloat (f_double r)
  /\ setFrom (q !! "int32") parseInt (f_int32 r)
  /\ setFrom (q !! "int64") parseInt (f_int64 r)
  /\ setFrom (q !! "decimal") parseFloat (f_decimal r)
  /\ setFrom (q !! "enum") id (f_enum r)
  /\ setFrom (q !! "datetime") id (f_datetime r)
  /\ boundFrom (q !! "boolean") parseBoolean (f_boolean r)
  /\ (forall s, q !! "boolean" = Some (QString s) ->
      (f_boolean r = Some true <-> toLowerCase s = "true")
      /\ (f_boolean r = Some false <-> toLowerCase s = "false")
      /\ (f_boolean r = None <->
          toLowerCase s <> "true" /\ toLowerCase s <> "false")).
Proof.
  intros q r. subst q r.
  unfold setFrom, boundFrom, GetWidgets.request, CheckQuery.request,
    CheckQuery.param.
  cbn.
  repeat (split;
    [match goal with
     | |- context [Fastify.query req !! ?k] =>
         destruct (Fastify.query req !! k) as [[s|l]|]; reflexivity
     end|]).
  intros s ->. unfold parseBoolean.
  destruct (String.eqb_spec (toLowerCase s) "true") as [Ht|Ht].
  - rewrite Ht. repeat split; try congruence; try discriminate.
    intros [H _]. congruence.
  - destruct (String.eqb_spec (toLowerCase s) "false") as [Hf|Hf].
    + rewrite Hf. repeat split; try congruence; try discriminate.
      intros [_ H]. congruence.
    + repeat split; try congruence; try discriminate; assumption.
Qed.

Lemma query_fields_bound_witness :
  let req := Fixture.get [("boolean", QString "TrUe")] [] in
  f_boolean (CheckQuery.request req) = Some true.
Proof.
  intros req.
  destruct (query_fields_bound req) as (_ & _ & _ & _ & _ & _ & _ & _ & _ & H).
  destruct (H "TrUe") as (Htrue & _ & _); [vm_compute; reflexivity|].
  apply Htrue. reflexivity.
Defined.

(** C9: when the eight path segments of a GET /checkPath request are the
    raw strings of the query parameters of the same names of a
    GET /checkQuery request, the two binders produce equal requests. *)
Theorem checkPath_request_eq_checkQuery {B B'} (reqP : Fastify.Request B)
    (reqQ : Fastify.Request B') :
  Forall (fun name => Fastify.query reqQ !! name = QString <$> params reqP !! name)
         checkNames ->
  CheckPath.request reqP = CheckQuery.request reqQ.
Proof.
  intros H. unfold checkNames in H.
  repeat (apply Forall_cons in H as [? H]).
  unfold CheckPath.request, CheckQuery.request, CheckQuery.param. cbn.
  repeat match goal with
         | Hq : Fastify.query reqQ !! _ = _ |- _ => rewrite Hq; clear Hq
         end.
  repeat match goal with
         | |- context [params reqP !! ?k] =>
             destruct (params reqP !! k); cbn
         end; reflexivity.
Qed.

Lemma checkPath_request_eq_checkQuery_witness :
  let raw := [("string", "a b"); ("boolean", "TRUE"); ("double", "1.5e3");
              ("int32", "12px"); ("int64", "0x1F"); ("decimal", "x");
              ("enum", "maybe"); ("datetime", "2001-02-03T04:05:06Z")] in
  CheckPath.request (Fixture.get [] raw)
  = CheckQuery.request (Fixture.get (prod_map id QString <$> raw) []).
Proof.
  intros raw.
  apply (checkPath_request_eq_checkQuery
           (Fixture.get [] raw) (Fixture.get (prod_map id QString <$> raw) [])).
  vm_compute. repeat constructor.
Defined.

(** ** Integer coercion *)

Lemma trailingZeros_nonneg (p : positive) : 0 <= trailingZeros p.
Proof. induction p; cbn [trailingZeros]; lia. Qed.

Lemma trailingZeros_multiple (j : nat) :
  forall (p : positive) (x : Z),
    Zpos p = x * 2 ^ Z.of_nat j -> Z.of_nat j <= trailingZeros p.
Proof.
  induction j as [|j IH]; intros p x Hp.
  - pose proof (trailingZeros_nonneg p). lia.
  - rewrite Nat2Z.inj_succ, Z.pow_succ_r in Hp by lia.
    destruct p as [p'|p'|].
    + rewrite Pos2Z.inj_xI in Hp. lia.
    + rewrite Pos2Z.inj_xO in Hp. cbn [trailingZeros].
      specialize (IH p' x). lia.
    + lia.
Qed.

(** An integer below [2^53] is a double. *)
Lemma ofInteger_exact (neg : bool) (n : Z) :
  0 <= n < 2 ^ 53 -> ofInteger neg n = Finite neg n 0.
Proof.
  intros [Hlo Hhi]. unfold ofInteger, roundRatio.
  destruct (Z.leb_spec n 0) as [H0|Hpos]; [f_equal; lia|].
  assert (Hk : 0 <= Z.log2 n < 53).
  { split; [apply Z.log2_nonneg|]. apply Z.log2_lt_pow2; lia. }
  assert (Hb : binade n 1 = Z.log2 n).
  { unfold binade. change (Z.log2 1) with 0. rewrite Z.sub_0_r.
    destruct (Z.leb_spec 0 (Z.log2 n)); [|lia].
    destruct (Z.ltb_spec n (1 * 2 ^ Z.log2 n)) as [Hlt|]; [|reflexivity].
    pose proof (Z.log2_spec n Hpos). lia. }
  rewrite Hb. set (k := Z.log2 n) in *.
  replace (Z.max (k - 52) (-1074)) with (k - 52) by lia.
  cbv zeta.
  destruct (Z.ltb_spec (k - 52) 0) as [Hneg|Hzero].
  - rewrite Z.div_1_r, Z.mod_1_r.
    change (1 <? 2 * 0) with false. change (1 =? 2 * 0) with false.
    cbn [orb andb].
    replace (0 <=? k - 52) with false by (symmetry; apply Z.leb_gt; lia).
    cbn [andb]. replace (- (k - 52)) with (52 - k) by lia.
    assert (Hp : 0 < n * 2 ^ (52 - k)) by (apply Z.mul_pos_pos; lia).
    unfold normalize. destruct (n * 2 ^ (52 - k)) as [|p|p] eqn:Hnum; try lia.
    replace (0 <=? k - 52) with false by (symmetry; apply Z.leb_gt; lia).
    assert (Htz : 52 - k <= trailingZeros p).
    { rewrite <- (Z2Nat.id (52 - k)) by lia.
      apply (trailingZeros_multiple _ p n).
      rewrite Z2Nat.id by lia. symmetry. exact Hnum. }
    replace (Z.min (trailingZeros p) (- (k - 52))) with (52 - k) by lia.
    rewrite <- Hnum, Z.div_mul by (apply Z.pow_nonzero; lia).
    f_equal. lia.
  - assert (Hk52 : k - 52 = 0) by lia. rewrite Hk52.
    change (2 ^ 0) with 1. rewrite !Z.mul_1_r, Z.div_1_r, Z.mod_1_r.
    change (1 <? 2 * 0) with false. change (1 =? 2 * 0) with false.
    change (0 <=? 0) with true.
    cbn [orb andb].
    replace (2 ^ 1024 <=? n) with false
      by (symmetry; apply Z.leb_gt;
          apply Z.lt_trans with (2 ^ 53); [lia | reflexivity]).
    unfold normalize. destruct n as [|p|p]; try lia.
    change (0 <=? 0) with true. cbv iota. change (2 ^ 0) with 1. f_equal. lia.
Qed.

(** A decimal digit is no white space, sign or radix marker, and its
    value is its code minus that of [0]. *)
Lemma digit_char (c : ascii) :
  isDigit c = true ->
  isWhiteSpace c = false
  /\ c <> "-"%char /\ c <> "+"%char /\ c <> "x"%char /\ c <> "X"%char
  /\ digitValue 10 c = Some (charCode c - 48)
  /\ 0 <= charCode c - 48 <= 9.
Proof.
  destruct c as [[] [] [] [] [] [] [] []]; vm_compute; intros H;
    try discriminate H; repeat split; congruence.
Qed.

Lemma takeDigits_allDigits (s : string) :
  forall count acc,
    allDigits s = true ->
    takeDigits 10 s count acc
    = (count + Z.of_nat (String.length s), decimalValue acc s, "").
Proof.
  induction s as [|c s IH]; intros count acc Hall; cbn.
  - f_equal. f_equal. lia.
  - cbn in Hall. apply andb_true_iff in Hall as [Hc Hs].
    destruct (digit_char c Hc) as (_ & _ & _ & _ & _ & Hv & _).
    rewrite Hv, IH by assumption. f_equal. f_equal. lia.
Qed.

Lemma decimalValue_nonneg (s : string) :
  forall acc, allDigits s = true -> 0 <= acc -> 0 <= decimalValue acc s.
Proof.
  induction s as [|c s IH]; intros acc Hall Hacc; cbn; [assumption|].
  cbn in Hall. apply andb_true_iff in Hall as [Hc Hs].
  destruct (digit_char c Hc) as (_ & _ & _ & _ & _ & _ & Hr).
  apply IH; [assumption | lia].
Qed.

Lemma allDigits_not_hex (s : string) :
  allDigits s = true -> startsWith "0x" s || startsWith "0X" s = false.
Proof.
  destruct s as [|c [|c' s]]; intros Hall; cbn [startsWith].
  - reflexivity.
  - rewrite andb_false_r. reflexivity.
  - cbn in Hall. apply andb_true_iff in Hall as [_ Hall].
    apply andb_true_iff in Hall as [Hc' _].
    destruct (digit_char c' Hc') as (_ & _ & _ & Hx & HX & _).
    destruct (Ascii.eqb_spec "x" c'); [congruence|].
    destruct (Ascii.eqb_spec "X" c'); [congruence|].
    cbn [andb]. rewrite !andb_false_r. reflexivity.
Qed.

(** A string of decimal digits of value below [2^53], with or without a
    minus sign, is parsed to exactly its value. *)
Lemma parseInt_digits (neg : bool) (s : string) :
  s <> "" -> allDigits s = true -> decimalValue 0 s < 2 ^ 53 ->
  parseInt ((if neg then "-" else "") +:+ s) = Finite neg (decimalValue 0 s) 0.
Proof.
  intros Hne Hall Hlt. unfold parseInt.
  assert (Hsign : takeSign (trimStart ((if neg then "-" else "") +:+ s)) = (neg, s)).
  { destruct s as [|c s']; [congruence|].
    cbn in Hall. apply andb_true_iff in Hall as [Hc _].
    destruct (digit_char c Hc) as (Hws & Hm & Hp & _).
    destruct neg.
    - reflexivity.
    - change (takeSign (if isWhiteSpace c then trimStart s' else String c s')
              = (false, String c s')).
      rewrite Hws. unfold takeSign.
      destruct c as [[] [] [] [] [] [] [] []]; try reflexivity; congruence. }
  rewrite Hsign, (allDigits_not_hex s Hall).
  rewrite (takeDigits_allDigits s 0 0 Hall).
  destruct s as [|c s']; [congruence|].
  replace (0 + Z.of_nat (String.length (String c s')) =? 0) with false
    by (symmetry; apply Z.eqb_neq; cbn [String.length]; lia).
  apply ofInteger_exact. split; [|assumption].
  apply decimalValue_nonneg; [assumption | lia].
Qed.

(** Without a radix prefix, [parseInt] is the base-10 prefix parse. *)
Lemma parseInt_base10 (s : string) :
  hexPrefixed s = false -> parseInt s = base10PrefixParse s.
Proof.
  unfold hexPrefixed, parseInt, base10PrefixParse.
  destruct (takeSign (trimStart s)) as [neg s1]. intros ->. reflexivity.
Qed.

(** C10, as stated, fails: the int32 (and int64) field of the raw string
    [0x10] is 16, read in radix 16, where a base-10 prefix parse reads
    the prefix [0]. *)
Lemma int32_hex_prefix_not_base10 :
  let req := Fixture.get [("int32", QString "0x10"); ("int64", QString "0x10")] [] in
  f_int32 (CheckQuery.request req) = Some (Finite false 16 0)
  /\ f_int64 (CheckQuery.request req) = Some (Finite false 16 0)
  /\ base10PrefixParse "0x10" = Finite false 0 0
  /\ f_int32 (CheckQuery.request req) <> Some (base10PrefixParse "0x10").
Proof. vm_compute. repeat split. discriminate. Qed.

(** ** Error responses on every route *)

Lemma errorTable_valid (c : string) (n : Z) :
  (c, n) ∈ errorTable -> validStatus (Js.VNumber n) = true.
Proof.
  unfold errorTable. intros H.
  repeat (apply elem_of_cons in H as [[= _ ->]|H]; [reflexivity|]).
  by apply elem_of_nil in H.
Qed.

(** An error whose code is in the table is answered, on every route,
    with the status of the table and the error as the body; no header
    is set and the handler returns. *)
Theorem error_known_code_response {T} (rr : RouteResult T) (e : ServiceError)
    (c : string) (n : Z) :
  errorArm rr = Some e -> code e = Some c -> (c, n) ∈ errorTable ->
  invoke (respond rr)
  = ({| statusCode := Some (Js.VNumber n); replyHeaders := [];
        sent := [PError e] |}, Return).
Proof.
  intros Harm Hcode Hin. rewrite (error_response rr e Harm).
  destruct e as [ec em]. cbn in Hcode. subst ec.
  rewrite (errorStatus_known c n em Hin), (errorTable_valid c n Hin).
  reflexivity.
Qed.

Lemma error_known_code_response_witness :
  invoke (respond (T := Fixture.T) (OfDeleteWidget (Fixture.failed (Some "Conflict"))))
  = ({| statusCode := Some (Js.VNumber 409); replyHeaders := [];
        sent := [PError (Fixture.errorOf (Some "Conflict"))] |}, Return).
Proof.
  apply (error_known_code_response
           (OfDeleteWidget (Fixture.failed (Some "Conflict")))
           (Fixture.errorOf (Some "Conflict")) "Conflict" 409).
  - reflexivity.
  - reflexivity.
  - unfold errorTable. do 5 right. left.
Defined.

(** An error without a code, with the empty code, or with a code that is
    neither in the table nor inherited from [Object.prototype], is
    answered on every route with status 500 and the error as the body. *)
Theorem error_unknown_code_response {T} (rr : RouteResult T) (e : ServiceError) :
  errorArm rr = Some e ->
  (forall c, code e = Some c ->
     standardErrorCodes !! c = None /\ c ∉ Js.objectPrototypeKeys) ->
  invoke (respond rr)
  = ({| statusCode := Some (Js.VNumber 500); replyHeaders := [];
        sent := [PError e] |}, Return).
Proof.
  intros Harm Hcode. rewrite (error_response rr e Harm).
  rewrite (errorStatus_default e Hcode). reflexivity.
Qed.

Lemma error_unknown_code_response_witness :
  invoke (respond (T := Fixture.T) (OfCheckPath (Fixture.failed (Some "Teapot"))))
  = ({| statusCode := Some (Js.VNumber 500); replyHeaders := [];
        sent := [PError (Fixture.errorOf (Some "Teapot"))] |}, Return).
Proof.
  apply (error_unknown_code_response
           (OfCheckPath (Fixture.failed (Some "Teapot")))
           (Fixture.errorOf (Some "Teapot"))).
  - reflexivity.
  - intros c [= <-]. split.
    + vm_compute. reflexivity.
    + apply (bool_decide_eq_false_1 ("Teapot" ∈ Js.objectPrototypeKeys)).
      vm_compute. reflexivity.
Defined.

(** The error arm takes precedence: two results with the same error are
    answered alike, whatever their routes and their value arms. *)
Theorem error_takes_precedence {T} (rr rr' : RouteResult T) (e : ServiceError) :
  errorArm rr = Some e -> errorArm rr' = Some e ->
  invoke (respond rr) = invoke (respond rr').
Proof.
  intros H H'. rewrite (error_response rr e H), (error_response rr' e H').
  reflexivity.
Qed.

Lemma error_takes_precedence_witness :
  invoke (respond (T := Fixture.T)
            (OfGetWidgets
               {| error := Some (Fixture.errorOf (Some "NotFound"));
                  value := Some {| GetWidgets.widgets := Some [Fixture.shiny] |} |}))
  = invoke (respond (T := Fixture.T) (OfDeleteWidget (Fixture.failed (Some "NotFound")))).
Proof.
  apply (error_takes_precedence _ _ (Fixture.errorOf (Some "NotFound")));
    reflexivity.
Defined.




(** ** Invariants of the response shaping *)

Ltac value_cases rr r v He :=
  destruct rr as [r|r|r|r|r|r|r|r|r]; cbn [errorArm] in He; run_handler;
  rewrite He; destruct (value r) as [v|]; cbn.

(** No handler calls [reply.send] twice, whatever the result. *)
Theorem never_sends_twice {T} (rr : RouteResult T) :
  (length (sent (fst (invoke (respond rr)))) <= 1)%nat.
Proof.
  destruct (errorArm rr) as [e|] eqn:He.
  { rewrite (error_response rr e He).
    destruct (validStatus (errorStatus e)); cbn; lia. }
  value_cases rr r v He; try lia.
  - destruct (CreateWidget.url v), (CreateWidget.eTag v),
      (CreateWidget.widget v); cbn; lia.
  - destruct (GetWidget.eTag v), (GetWidget.widget v),
      (isTrue (GetWidget.notModified v)); cbn; lia.
  - destruct (isTrue (DeleteWidget.notFound v)),
      (isTrue (DeleteWidget.conflict v)); cbn; lia.
  - destruct (GetWidgetBatch.results v); cbn; lia.
Qed.

(** Without an error, the only statuses a handler sets are those of its
    route: none for GET /, 201 for POST /widgets, 200 or 304 for
    GET /widgets/:id, 404, 409 or 204 for DELETE /widgets/:id, and 200
    for the other routes. *)
Theorem value_status_of_route {T} (rr : RouteResult T) (c : Js.Value) :
  errorArm rr = None ->
  statusCode (fst (invoke (respond rr))) = Some c ->
  exists n, c = Js.VNumber n /\ n ∈ routeStatuses rr.
Proof.
  destruct rr as [r|r|r|r|r|r|r|r|r]; cbn [errorArm routeStatuses];
    intros He; run_handler; rewrite He; destruct (value r) as [v|]; cbn;
    try (intros [=]; fail);
    try (intros [= <-]; eexists; split; [reflexivity | set_solver]).
  - destruct (CreateWidget.url v), (CreateWidget.eTag v),
      (CreateWidget.widget v); cbn;
      try (intros [=]; fail);
      (intros [= <-]; eexists; split; [reflexivity | set_solver]).
  - destruct (GetWidget.eTag v), (GetWidget.widget v),
      (isTrue (GetWidget.notModified v)); cbn;
      try (intros [=]; fail);
      (intros [= <-]; eexists; split; [reflexivity | set_solver]).
  - destruct (isTrue (DeleteWidget.notFound v)),
      (isTrue (DeleteWidget.conflict v)); cbn;
      (intros [= <-]; eexists; split; [reflexivity | set_solver]).
  - destruct (GetWidgetBatch.results v); cbn;
      try (intros [=]; fail);
      (intros [= <-]; eexists; split; [reflexivity | set_solver]).
Qed.

Lemma value_status_of_route_witness :
  exists n, Js.VNumber 204 = Js.VNumber n /\ n ∈ [404; 409; 204].
Proof.
  apply (value_status_of_route (T := Fixture.T)
           (OfDeleteWidget
              (Fixture.succeeded {| DeleteWidget.notFound := Some false;
                                    DeleteWidget.conflict := None |}))
           (Js.VNumber 204));
    reflexivity.
Defined.

Lemma errorStatus_refused (e : ServiceError) :
  validStatus (errorStatus e) = false ->
  exists k, code e = Some k /\ k ∈ Js.objectPrototypeKeys.
Proof.
  unfold errorStatus, errorStatusLookup.
  destruct (code e) as [c|]; [|cbn; discriminate].
  change (Js.truthy (Js.VString c)) with (negb (String.eqb c "")).
  destruct (String.eqb c "") eqn:Hc; cbn [negb].
  - cbn [Js.truthy]. rewrite Hc. cbn. discriminate.
  - unfold Js.getProperty.
    destruct (standardErrorCodes !! c) as [m|] eqn:Hm.
    + pose proof (standardErrorCodes_nonzero c m Hm) as Hnz.
      cbn [Js.truthy]. replace (m =? 0) with false
        by (symmetry; apply Z.eqb_neq; exact Hnz).
      cbn [negb]. apply standardErrorCodes_entries in Hm.
      rewrite (errorTable_valid c m Hm). discriminate.
    + destruct (bool_decide (c ∈ Js.objectPrototypeKeys)) eqn:Hk; cbn.
      * intros _. exists c. split; [reflexivity|].
        apply bool_decide_eq_true in Hk. exact Hk.
      * discriminate.
Qed.

(** A handler throws after the service call in two cases only: the
    contract violation, on a result without an error on a route other
    than GET /; and the refusal of [reply.status], on an error whose code
    is a property name inherited from [Object.prototype], in which case
    the reply is untouched. *)
Theorem handler_throws_classified {T} (rr : RouteResult T) (msg : string) :
  snd (invoke (respond rr)) = Throw msg ->
  (msg = contractViolation /\ errorArm rr = None /\ isGetApiInfo rr = false)
  \/ (msg = badStatusCode
      /\ fst (invoke (respond rr)) = newReply
      /\ exists e k, errorArm rr = Some e /\ code e = Some k
                     /\ k ∈ Js.objectPrototypeKeys).
Proof.
  destruct (errorArm rr) as [e|] eqn:He.
  { rewrite (error_response rr e He).
    destruct (validStatus (errorStatus e)) eqn:Hvalid; cbn; intros [= <-].
    right. split; [reflexivity|]. split; [reflexivity|].
    destruct (errorStatus_refused e Hvalid) as (k & Hcode & Hk). eauto. }
  intros H. left. revert H.
  value_cases rr r v He; try (intros [=]; fail);
    try (intros [= <-]; repeat split; fail).
  - destruct (CreateWidget.url v), (CreateWidget.eTag v),
      (CreateWidget.widget v); cbn; intros [=].
  - destruct (GetWidget.eTag v), (GetWidget.widget v),
      (isTrue (GetWidget.notModified v)); cbn;
      try (intros [=]; fail); intros [= <-]; repeat split.
  - destruct (isTrue (DeleteWidget.notFound v)),
      (isTrue (DeleteWidget.conflict v)); cbn; intros [=].
  - destruct (GetWidgetBatch.results v); cbn;
      try (intros [=]; fail); intros [= <-]; repeat split.
Qed.

Lemma handler_throws_classified_witness :
  (badStatusCode = contractViolation
   /\ errorArm (T := Fixture.T) (OfGetApiInfo (Fixture.failed (Some "toString"))) = None
   /\ isGetApiInfo (T := Fixture.T) (OfGetApiInfo (Fixture.failed (Some "toString"))) = false)
  \/ (badStatusCode = badStatusCode
      /\ fst (invoke (respond (T := Fixture.T)
                        (OfGetApiInfo (Fixture.failed (Some "toString")))))
         = newReply
      /\ exists e k,
           errorArm (T := Fixture.T) (OfGetApiInfo (Fixture.failed (Some "toString")))
           = Some e
           /\ code e = Some k /\ k ∈ Js.objectPrototypeKeys).
Proof.
  apply (handler_throws_classified (T := Fixture.T)
           (OfGetApiInfo (Fixture.failed (Some "toString"))) badStatusCode).
  reflexivity.
Defined.

(** A handler sets a header only on a result without an error, and then
    only Location and eTag on POST /widgets and eTag on
    GET /widgets/:id. *)
Theorem headers_of_route {T} (rr : RouteResult T) (name v : string) :
  (name, v) ∈ replyHeaders (fst (invoke (respond rr))) ->
  errorArm rr = None /\ name ∈ routeHeaders rr.
Proof.
  destruct (errorArm rr) as [e|] eqn:He.
  { rewrite (error_response rr e He).
    destruct (validStatus (errorStatus e)); cbn;
      intros H; apply elem_of_nil in H; destruct H. }
  intros H. split; [reflexivity|]. revert H.
  destruct rr as [r|r|r|r|r|r|r|r|r]; cbn [errorArm routeHeaders] in *;
    run_handler; rewrite He; destruct (value r) as [w|]; cbn;
    try (intros H; apply elem_of_nil in H; destruct H).
  - destruct (CreateWidget.url w), (CreateWidget.eTag w),
      (CreateWidget.widget w); cbn; intros H;
      repeat (apply elem_of_cons in H as [[= -> _]|H]; [set_solver|]);
      apply elem_of_nil in H; destruct H.
  - destruct (GetWidget.eTag w), (GetWidget.widget w),
      (isTrue (GetWidget.notModified w)); cbn; intros H;
      repeat (apply elem_of_cons in H as [[= -> _]|H]; [set_solver|]);
      apply elem_of_nil in H; destruct H.
  - destruct (isTrue (DeleteWidget.notFound w)),
      (isTrue (DeleteWidget.conflict w)); cbn; intros H;
      apply elem_of_nil in H; destruct H.
  - destruct (GetWidgetBatch.results w); cbn; intros H;
      apply elem_of_nil in H; destruct H.
Qed.

Lemma headers_of_route_witness :
  errorArm (T := Fixture.T)
    (OfCreateWidget (Fixture.createWidgetOf {| CreateWidget.newWidget := None |}))
  = None
  /\ "Location" ∈ routeHeaders (T := Fixture.T)
       (OfCreateWidget (Fixture.createWidgetOf {| CreateWidget.newWidget := None |})).
Proof.
  apply (headers_of_route (T := Fixture.T)
           (OfCreateWidget (Fixture.createWidgetOf {| CreateWidget.newWidget := None |}))
           "Location" "/widgets/1").
  vm_compute. left.
Defined.

Lemma neither_arm_throws_witness :
  invoke (respond (T := Fixture.T) (OfCheckQuery Fixture.neither))
  = (newReply, Throw contractViolation).
Proof.
  apply (neither_arm_throws (T := Fixture.T) (OfCheckQuery Fixture.neither));
    reflexivity.
Defined.

(** ** The remaining value branches *)

(** GET /: a value is sent as the body without a call of [reply.status],
    and the handler runs to its end. *)
Theorem getApiInfo_value_response {T B} (api : IConformanceApi T)
    (req : Fastify.Request B) (v : ApiInfo T) :
  getApiInfo api tt = {| error := None; value := Some v |} ->
  invoke (getApiInfoHandler api req)
  = ({| statusCode := None; replyHeaders := []; sent := [PApiInfo v] |},
     Normal tt).
Proof.
  intros Hres. unfold getApiInfoHandler, GetApiInfo.request. rewrite Hres.
  reflexivity.
Qed.

Lemma getApiInfo_value_response_witness :
  invoke (getApiInfoHandler Fixture.api (Fixture.get [] []))
  = ({| statusCode := None; replyHeaders := [];
        sent := [PApiInfo (T := Fixture.T) "conformance"] |}, Normal tt).
Proof.
  apply (getApiInfo_value_response Fixture.api (Fixture.get [] [])).
  reflexivity.
Defined.

(** POST /widgets: the body is passed as the widget of the request; on a
    value, Location is set when [url] is not null and then eTag when
    [eTag] is not null, and a widget is sent with status 201. *)
Theorem createWidget_handler_response {T} (api : IConformanceApi T)
    (req : Fastify.Request (option (Widget T))) (v : CreateWidget.Value T) :
  createWidget api {| CreateWidget.newWidget := body req |}
  = {| error := None; value := Some v |} ->
  invoke (createWidgetHandler api req)
  = ({| statusCode := match CreateWidget.widget v with
                      | Some _ => Some (Js.VNumber 201)
                      | None => None
                      end;
        replyHeaders :=
          match CreateWidget.url v with
          | Some u => [("Location", u)]
          | None => []
          end ++
          match CreateWidget.eTag v with
          | Some t => [("eTag", t)]
          | None => []
          end;
        sent := match CreateWidget.widget v with
                | Some w => [PWidget w]
                | None => []
                end |}, Return).
Proof.
  intros Hres. unfold createWidgetHandler, CreateWidget.request.
  rewrite Hres. apply createWidget_value_response.
Qed.

Lemma createWidget_handler_response_witness :
  let req : Fastify.Request (option (Widget Fixture.T)) :=
    {| Fastify.query := ∅; Fastify.params := ∅; Fastify.headers := ∅;
       Fastify.body := Some Fixture.shiny |} in
  invoke (createWidgetHandler Fixture.api req)
  = ({| statusCode := Some (Js.VNumber 201);
        replyHeaders := [("Location", "/widgets/1"); ("eTag", "1")];
        sent := [PWidget Fixture.shiny] |}, Return).
Proof.
  intros req.
  apply (createWidget_handler_response Fixture.api req
           {| CreateWidget.widget := Some Fixture.shiny;
              CreateWidget.url := Some "/widgets/1";
              CreateWidget.eTag := Some "1" |}).
  reflexivity.
Defined.

(** GET /widgets/:id: a value with no widget whose [notModified] is not
    true makes the handler throw the contract violation, with no status
    and no body, after the eTag header has been set when [eTag] is. *)
Theorem getWidget_value_without_outcome_throws {T} (v : GetWidget.Value T) :
  GetWidget.widget v = None ->
  GetWidget.notModified v <> Some true ->
  invoke (GetWidget.respond {| error := None; value := Some v |})
  = ({| statusCode := None;
        replyHeaders := match GetWidget.eTag v with
                        | Some t => [("eTag", t)]
                        | None => []
                        end;
        sent := [] |}, Throw contractViolation).
Proof.
  intros Hw Hn. run_handler. rewrite Hw.
  destruct (GetWidget.notModified v) as [[|]|]; [congruence| |];
    destruct (GetWidget.eTag v); reflexivity.
Qed.

Lemma getWidget_value_without_outcome_throws_witness :
  invoke (GetWidget.respond (T := Fixture.T)
            (Fixture.succeeded {| GetWidget.widget := None;
                                  GetWidget.eTag := Some "1";
                                  GetWidget.notModified := Some false |}))
  = ({| statusCode := None; replyHeaders := [("eTag", "1")]; sent := [] |},
     Throw contractViolation).
Proof.
  apply (getWidget_value_without_outcome_throws (T := Fixture.T)
           {| GetWidget.widget := None; GetWidget.eTag := Some "1";
              GetWidget.notModified := Some false |});
    [reflexivity | discriminate].
Defined.

(** POST /widgets/get: the body is passed as the ids of the request; a
    value with results is answered 200 with the results, and a value
    without results makes the handler throw the contract violation with
    the reply untouched. *)
Theorem getWidgetBatch_handler_response {T} (api : IConformanceApi T)
    (req : Fastify.Request (option (list Number))) (v : GetWidgetBatch.Value T) :
  getWidgetBatch api {| GetWidgetBatch.ids := body req |}
  = {| error := None; value := Some v |} ->
  invoke (getWidgetBatchHandler api req)
  = match GetWidgetBatch.results v with
    | Some rs =>
        ({| statusCode := Some (Js.VNumber 200); replyHeaders := [];
            sent := [PResults rs] |}, Return)
    | None => (newReply, Throw contractViolation)
    end.
Proof.
  intros Hres. unfold getWidgetBatchHandler, GetWidgetBatch.request.
  rewrite Hres. run_handler. destruct (GetWidgetBatch.results v); reflexivity.
Qed.

Lemma getWidgetBatch_handler_response_witness :
  invoke (getWidgetBatchHandler BatchFixture.api
            (BatchFixture.post (Some [Fixture.one; Finite false 999 0])))
  = ({| statusCode := Some (Js.VNumber 200); replyHeaders := [];
        sent := [PResults (T := Fixture.T) [Some Fixture.shiny; None]] |},
     Return).
Proof.
  apply (getWidgetBatch_handler_response BatchFixture.api
           (BatchFixture.post (Some [Fixture.one; Finite false 999 0]))
           {| GetWidgetBatch.results :=
                Some [BatchFixture.lookup Fixture.one;
                      BatchFixture.lookup (Finite false 999 0)] |}).
  reflexivity.
Defined.

(** POST /mirrorFields without a body: the handler throws before the
    service is called, with the reply untouched. *)
Theorem mirrorFields_without_body_throws {T} (api : IConformanceApi T)
    (req : Fastify.Request (option (MirrorFields T))) :
  body req = None ->
  fst (invoke (mirrorFieldsHandler api req)) = newReply
  /\ rejected (snd (invoke (mirrorFieldsHandler api req))) = true.
Proof.
  intros Hb. unfold mirrorFieldsHandler, MirrorFieldsRoute.request.
  rewrite Hb. split; reflexivity.
Qed.

Lemma mirrorFields_without_body_throws_witness :
  let req : Fastify.Request (option (MirrorFields Fixture.T)) :=
    {| Fastify.query := ∅; Fastify.params := ∅; Fastify.headers := ∅;
       Fastify.body := None |} in
  fst (invoke (mirrorFieldsHandler Fixture.api req)) = newReply
  /\ rejected (snd (invoke (mirrorFieldsHandler Fixture.api req))) = true.
Proof.
  intros req. apply (mirrorFields_without_body_throws Fixture.api req).
  reflexivity.
Defined.

(** POST /mirrorFields with a body: the service is called with the field
    and the matrix of the body, and a value is answered 200 with that
    value as the body, the handler returning without a throw. *)
Theorem mirrorFields_handler_response {T} (api : IConformanceApi T)
    (req : Fastify.Request (option (MirrorFields T))) (b v : MirrorFields T) :
  body req = Some b ->
  mirrorFields api b = {| error := None; value := Some v |} ->
  invoke (mirrorFieldsHandler api req)
  = ({| statusCode := Some (Js.VNumber 200); replyHeaders := [];
        sent := [PMirror v] |}, Return).
Proof.
  intros Hb Hres. unfold mirrorFieldsHandler, MirrorFieldsRoute.request.
  rewrite Hb. destruct b as [bf bm]. cbn [field matrix]. rewrite Hres.
  reflexivity.
Qed.

Lemma mirrorFields_handler_response_witness :
  invoke (mirrorFieldsHandler Fixture.api
            (BatchFixture.post (Some BatchFixture.mirrored)))
  = ({| statusCode := Some (Js.VNumber 200); replyHeaders := [];
        sent := [PMirror BatchFixture.mirrored] |}, Return).
Proof.
  apply (mirrorFields_handler_response Fixture.api
           (BatchFixture.post (Some BatchFixture.mirrored))
           BatchFixture.mirrored BatchFixture.mirrored);
    reflexivity.
Defined.

(** ** The coercions *)

Lemma toLowerChar_idempotent (c : ascii) :
  toLowerChar (toLowerChar c) = toLowerChar c.
Proof. destruct c as [[] [] [] [] [] [] [] []]; reflexivity. Qed.

Lemma toLowerCase_idempotent (s : string) :
  toLowerCase (toLowerCase s) = toLowerCase s.
Proof.
  induction s as [|c s IH]; cbn; [reflexivity|].
  rewrite toLowerChar_idempotent, IH. reflexivity.
Qed.

Lemma toLowerCase_length (s : string) :
  String.length (toLowerCase s) = String.length s.
Proof. induction s as [|c s IH]; cbn; [reflexivity | rewrite IH; reflexivity]. Qed.

(** [parseBoolean] does not depend on the case of its argument. *)
Theorem parseBoolean_toLowerCase (s : string) :
  parseBoolean (toLowerCase s) = parseBoolean s.
Proof. unfold parseBoolean. rewrite toLowerCase_idempotent. reflexivity. Qed.

(** [parseBoolean] accepts the two words only: an accepted string has
    the length of its word, so no white space or other character around
    the word is tolerated. *)
Theorem parseBoolean_exact_word (s : string) (b : bool) :
  parseBoolean s = Some b ->
  toLowerCase s = (if b then "true" else "false")
  /\ String.length s = (if b then 4 else 5)%nat.
Proof.
  unfold parseBoolean. intros H.
  assert (Hw : toLowerCase s = (if b then "true" else "false")).
  { destruct (String.eqb_spec (toLowerCase s) "true") as [Ht|_].
    - injection H as <-. exact Ht.
    - destruct (String.eqb_spec (toLowerCase s) "false") as [Hf|_].
      + injection H as <-. exact Hf.
      + discriminate H. }
  split; [exact Hw|].
  rewrite <- (toLowerCase_length s), Hw. destruct b; reflexivity.
Qed.

Lemma parseBoolean_exact_word_witness :
  toLowerCase "FaLsE" = "false" /\ String.length "FaLsE" = 5%nat.
Proof. apply (parseBoolean_exact_word "FaLsE" false). reflexivity. Defined.

Lemma digit_not_I (c : ascii) : isDigit c = true -> Ascii.eqb "I" c = false.
Proof.
  destruct c as [[] [] [] [] [] [] [] []]; vm_compute; intros H;
    try discriminate H; reflexivity.
Qed.

Lemma nondigit_value (c : ascii) : isDigit c = false -> digitValue 10 c = None.
Proof.
  unfold isDigit, digitValue. intros H. cbv zeta in *. rewrite H.
  reflexivity.
Qed.

Lemma takeSign_trimStart_signed (neg : bool) (c : ascii) (t : string) :
  isDigit c = true ->
  takeSign (trimStart (signPrefix neg +:+ String c t)) = (neg, String c t).
Proof.
  intros Hc. destruct (digit_char c Hc) as (Hws & Hm & Hp & _).
  destruct neg.
  - reflexivity.
  - change (takeSign (if isWhiteSpace c then trimStart t else String c t)
            = (false, String c t)).
    rewrite Hws. unfold takeSign.
    destruct c as [[] [] [] [] [] [] [] []]; try reflexivity; congruence.
Qed.

Lemma takeDigits_prefix (d rest : string) :
  forall count acc,
    allDigits d = true -> stopsInteger rest = true ->
    takeDigits 10 (d +:+ rest) count acc
    = (count + Z.of_nat (String.length d), decimalValue acc d, rest).
Proof.
  induction d as [|c d IH]; intros count acc Hall Hstop.
  - change ("" +:+ rest) with rest. cbn [String.length decimalValue].
    replace (count + Z.of_nat 0) with count by lia.
    destruct rest as [|c rest]; [reflexivity|].
    cbn in Hstop. apply andb_true_iff in Hstop as [Hstop _].
    apply andb_true_iff in Hstop as [Hstop _].
    apply negb_true_iff in Hstop.
    cbn [takeDigits]. rewrite (nondigit_value c Hstop). reflexivity.
  - cbn in Hall. apply andb_true_iff in Hall as [Hc Hd].
    destruct (digit_char c Hc) as (_ & _ & _ & _ & _ & Hv & _).
    change (String c d +:+ rest) with (String c (d +:+ rest)).
    cbn [takeDigits String.length decimalValue].
    rewrite Hv, IH by assumption. f_equal. f_equal. lia.
Qed.

Lemma prefix_not_hex (d rest : string) :
  allDigits d = true -> stopsInteger rest = true ->
  startsWith "0x" (d +:+ rest) || startsWith "0X" (d +:+ rest) = false.
Proof.
  intros Hall Hstop.
  destruct d as [|c0 [|c1 d]].
  - change ("" +:+ rest) with rest.
    destruct rest as [|c rest]; [reflexivity|].
    cbn in Hstop. apply andb_true_iff in Hstop as [Hstop _].
    apply andb_true_iff in Hstop as [Hstop _].
    apply negb_true_iff in Hstop.
    assert (H0 : Ascii.eqb "0" c = false).
    { destruct (Ascii.eqb_spec "0" c) as [<-|]; [discriminate Hstop|reflexivity]. }
    cbn [startsWith]. rewrite H0. reflexivity.
  - change (String c0 "" +:+ rest) with (String c0 rest).
    destruct rest as [|c' rest]; cbn [startsWith].
    + rewrite !andb_false_r. reflexivity.
    + cbn in Hstop. apply andb_true_iff in Hstop as [Hstop HX].
      apply andb_true_iff in Hstop as [_ Hx].
      apply negb_true_iff in Hx, HX.
      rewrite (Ascii.eqb_sym "x" c'), Hx, (Ascii.eqb_sym "X" c'), HX.
      cbn [andb]. rewrite !andb_false_r. reflexivity.
  - change (String c0 (String c1 d) +:+ rest)
      with (String c0 (String c1 (d +:+ rest))).
    cbn in Hall. apply andb_true_iff in Hall as [_ Hall].
    apply andb_true_iff in Hall as [Hc1 _].
    destruct (digit_char c1 Hc1) as (_ & _ & _ & Hx & HX & _).
    cbn [startsWith].
    destruct (Ascii.eqb_spec "x" c1); [congruence|].
    destruct (Ascii.eqb_spec "X" c1); [congruence|].
    cbn [andb]. rewrite !andb_false_r. reflexivity.
Qed.

(** [parseInt] reads the integer prefix and ignores what follows it. *)
Lemma parseInt_integer_prefix (neg : bool) (digits rest : string) :
  digits <> "" -> allDigits digits = true -> decimalValue 0 digits < 2 ^ 53 ->
  stopsInteger rest = true ->
  parseInt (signPrefix neg +:+ digits +:+ rest)
  = Finite neg (decimalValue 0 digits) 0.
Proof.
  intros Hne Hall Hlt Hstop. unfold parseInt.
  destruct digits as [|c d]; [congruence|].
  assert (Hc : isDigit c = true).
  { cbn in Hall. apply andb_true_iff in Hall as [Hc _]. exact Hc. }
  change (String c d +:+ rest) with (String c (d +:+ rest)).
  rewrite (takeSign_trimStart_signed neg c (d +:+ rest) Hc).
  change (String c (d +:+ rest)) with (String c d +:+ rest).
  rewrite (prefix_not_hex (String c d) rest Hall Hstop).
  rewrite (takeDigits_prefix (String c d) rest 0 0 Hall Hstop).
  replace (0 + Z.of_nat (String.length (String c d)) =? 0) with false
    by (symmetry; apply Z.eqb_neq; cbn [String.length]; lia).
  apply ofInteger_exact. split; [|assumption].
  apply decimalValue_nonneg; [assumption | lia].
Qed.

(** The [id] of GET /widgets/:id and DELETE /widgets/:id is the integer
    prefix of the segment: a run of decimal digits of value below
    [2^53], with or without a minus sign, followed by anything that
    starts with neither a digit nor [x], binds the value of the digits,
    so that a fractional segment is truncated. *)
Theorem path_id_integer_prefix {B} (req : Fastify.Request B) (neg : bool)
    (digits rest : string) :
  params req !! "id" = Some (signPrefix neg +:+ digits +:+ rest) ->
  digits <> "" -> allDigits digits = true -> decimalValue 0 digits < 2 ^ 53 ->
  stopsInteger rest = true ->
  GetWidget.id (GetWidget.request req) = Some (Finite neg (decimalValue 0 digits) 0)
  /\ DeleteWidget.id (DeleteWidget.request req)
     = Some (Finite neg (decimalValue 0 digits) 0).
Proof.
  intros Hid Hne Hall Hlt Hstop. cbn. rewrite Hid.
  rewrite (parseInt_integer_prefix neg digits rest Hne Hall Hlt Hstop).
  split; reflexivity.
Qed.

Lemma path_id_integer_prefix_witness :
  let req := Fixture.get [] [("id", "-12.75")] in
  GetWidget.id (GetWidget.request req) = Some (Finite true 12 0)
  /\ DeleteWidget.id (DeleteWidget.request req) = Some (Finite true 12 0).
Proof.
  intros req.
  apply (path_id_integer_prefix req true "12" ".75");
    [ vm_compute; reflexivity | discriminate | reflexivity
    | vm_compute; reflexivity | reflexivity ].
Defined.

(** On a string of decimal digits of value below [2^53], with or without
    a minus sign, [parseFloat] and [parseInt] agree: the double and
    decimal fields of the check routes bind the same number as the int32
    and int64 fields. *)
Theorem parseFloat_integer (neg : bool) (digits : string) :
  digits <> "" -> allDigits digits = true -> decimalValue 0 digits < 2 ^ 53 ->
  parseFloat (signPrefix neg +:+ digits) = Finite neg (decimalValue 0 digits) 0
  /\ parseFloat (signPrefix neg +:+ digits) = parseInt (signPrefix neg +:+ digits).
Proof.
  intros Hne Hall Hlt.
  assert (Hint : parseInt (signPrefix neg +:+ digits)
                 = Finite neg (decimalValue 0 digits) 0)
    by (apply parseInt_digits; assumption).
  rewrite Hint.
  enough (Hfloat : parseFloat (signPrefix neg +:+ digits)
                   = Finite neg (decimalValue 0 digits) 0)
    by (split; exact Hfloat).
  unfold parseFloat. destruct digits as [|c d]; [congruence|].
  assert (Hc : isDigit c = true).
  { cbn in Hall. apply andb_true_iff in Hall as [Hc _]. exact Hc. }
  rewrite (takeSign_trimStart_signed neg c d Hc).
  assert (Hinf : startsWith "Infinity" (String c d) = false).
  { cbn [startsWith]. rewrite (digit_not_I c Hc). reflexivity. }
  rewrite Hinf, (takeDigits_allDigits (String c d) 0 0 Hall).
  replace (0 + Z.of_nat (String.length (String c d)) + 0 =? 0) with false
    by (symmetry; apply Z.eqb_neq; cbn [String.length]; lia).
  cbn [takeExponent]. unfold ofDecimal. cbn [Z.sub Z.opp Z.add Z.leb Z.compare].
  change (10 ^ 0) with 1. rewrite Z.mul_1_r.
  apply ofInteger_exact. split; [|assumption].
  apply decimalValue_nonneg; [assumption | lia].
Qed.

Lemma parseFloat_integer_witness :
  parseFloat "-4294967296" = Finite true 4294967296 0
  /\ parseFloat "-4294967296" = parseInt "-4294967296".
Proof.
  apply (parseFloat_integer true "4294967296");
    [discriminate | reflexivity | vm_compute; reflexivity].
Defined.

Lemma roundRatio_not_NaN (neg : bool) (p q : Z) : roundRatio neg p q <> NaN.
Proof.
  unfold roundRatio, normalize. cbv zeta.
  repeat match goal with
         | |- context [if ?b then _ else _] => destruct b
         | |- context [match ?m with Z0 => _ | Zpos _ => _ | Zneg _ => _ end] =>
             destruct m
         end; discriminate.
Qed.

Lemma ofDecimal_not_NaN (neg : bool) (m e : Z) : ofDecimal neg m e <> NaN.
Proof. unfold ofDecimal. destruct (0 <=? e); apply roundRatio_not_NaN. Qed.

Lemma takeDigits_count_ge (radix : Z) (s : string) :
  forall count acc, count <= fst (fst (takeDigits radix s count acc)).
Proof.
  induction s as [|c s IH]; intros count acc; cbn [takeDigits]; [cbn; lia|].
  destruct (digitValue radix c) as [d|]; [|cbn; lia].
  specialize (IH (count + 1) (acc * radix + d)). lia.
Qed.

(** A string that [parseInt] does not reject is not rejected by
    [parseFloat] either: a raw value that binds a number as int32 or
    int64 binds a number as double or decimal. *)
Theorem parseInt_accepts_parseFloat_accepts (s : string) :
  parseInt s <> NaN -> parseFloat s <> NaN.
Proof.
  unfold parseInt, parseFloat.
  destruct (takeSign (trimStart s)) as [neg s1].
  assert (Hfloat : forall ic iv s2,
            takeDigits 10 s1 0 0 = (ic, iv, s2) -> ic <> 0 ->
            (let '(icount, ival, s2) := takeDigits 10 s1 0 0 in
             let '(fcount, mant, s3) :=
               match s2 with
               | String "." s2' => takeDigits 10 s2' 0 ival
               | _ => (0, ival, s2)
               end in
             if icount + fcount =? 0 then NaN
             else ofDecimal neg mant (takeExponent s3 - fcount)) <> NaN).
  { intros ic iv s2 Hd Hic. rewrite Hd.
    pose proof (takeDigits_count_ge 10 s1 0 0) as Hge. rewrite Hd in Hge.
    cbn in Hge.
    assert (Hfrac : forall t, 0 <= fst (fst (takeDigits 10 t 0 iv)))
      by (intros t; apply takeDigits_count_ge).
    destruct (match s2 with
              | String "." s2' => takeDigits 10 s2' 0 iv
              | _ => (0, iv, s2)
              end) as [[fc mant] s3] eqn:Hf.
    assert (Hfc : 0 <= fc).
    { destruct s2 as [|c s2'].
      - injection Hf as <- _ _. lia.
      - destruct (Ascii.eqb_spec c ".") as [->|Hne].
        + specialize (Hfrac s2'). rewrite Hf in Hfrac. exact Hfrac.
        + destruct c as [[] [] [] [] [] [] [] []];
            try (injection Hf as <- _ _; lia); congruence. }
    replace (ic + fc =? 0) with false by (symmetry; apply Z.eqb_neq; lia).
    apply ofDecimal_not_NaN. }
  destruct (startsWith "0x" s1 || startsWith "0X" s1) eqn:Hhex.
  - intros _.
    assert (Hzero : exists t, s1 = String "0" t).
    { destruct s1 as [|c t]; [discriminate Hhex|]. cbn [startsWith] in Hhex.
      destruct (Ascii.eqb_spec "0" c) as [<-|]; [eauto|discriminate Hhex]. }
    destruct Hzero as [t ->].
    change (startsWith "Infinity" (String "0" t)) with false. cbv iota.
    destruct (takeDigits 10 (String "0" t) 0 0) as [[ic iv] s2] eqn:Hd.
    apply (Hfloat ic iv s2 eq_refl).
    pose proof (takeDigits_count_ge 10 t 1 0) as Hge.
    change (takeDigits 10 (String "0" t) 0 0) with (takeDigits 10 t 1 0) in Hd.
    rewrite Hd in Hge. cbn in Hge. lia.
  - destruct (takeDigits 10 s1 0 0) as [[ic iv] s2] eqn:Hd.
    destruct (Z.eqb_spec ic 0) as [->|Hic]; [congruence|]. intros _.
    destruct (startsWith "Infinity" s1); [discriminate|].
    apply (Hfloat ic iv s2 eq_refl Hic).
Qed.

Lemma parseInt_accepts_parseFloat_accepts_witness :
  parseFloat "0x1F" <> NaN.
Proof.
  apply (parseInt_accepts_parseFloat_accepts "0x1F"). vm_compute. discriminate.
Defined.

Lemma trimStart_whiteSpace (ws s : string) :
  allWhiteSpace ws = true -> trimStart (ws +:+ s) = trimStart s.
Proof.
  induction ws as [|c ws IH]; intros Hws; [reflexivity|].
  cbn in Hws. apply andb_true_iff in Hws as [Hc Hws].
  change (String c ws +:+ s) with (String c (ws +:+ s)).
  cbn [trimStart]. rewrite Hc. apply IH. exact Hws.
Qed.

(** The numeric coercions skip leading white space, which the boolean
    coercion does not tolerate. *)
Theorem numeric_coercions_skip_whiteSpace (ws s : string) :
  allWhiteSpace ws = true -> ws <> "" ->
  parseInt (ws +:+ s) = parseInt s
  /\ parseFloat (ws +:+ s) = parseFloat s
  /\ parseBoolean (ws +:+ s) = None.
Proof.
  intros Hws Hne. unfold parseInt, parseFloat.
  rewrite (trimStart_whiteSpace ws s Hws). split; [reflexivity|].
  split; [reflexivity|].
  destruct ws as [|c ws]; [congruence|].
  cbn in Hws. apply andb_true_iff in Hws as [Hc _].
  unfold parseBoolean.
  change (toLowerCase (String c ws +:+ s))
    with (String (toLowerChar c) (toLowerCase (ws +:+ s))).
  assert (Ht : Ascii.eqb (toLowerChar c) "t" = false
               /\ Ascii.eqb (toLowerChar c) "f" = false).
  { destruct c as [[] [] [] [] [] [] [] []]; try discriminate Hc;
      split; reflexivity. }
  destruct Ht as [Ht Hf]. cbn [String.eqb]. rewrite Ht, Hf. reflexivity.
Qed.

Lemma numeric_coercions_skip_whiteSpace_witness :
  parseInt " 42" = parseInt "42"
  /\ parseFloat " 42" = parseFloat "42"
  /\ parseBoolean " 42" = None.
Proof.
  apply (numeric_coercions_skip_whiteSpace " " "42");
    [reflexivity | discriminate].
Defined.

(** ** Integer coercion in radix 16 *)

Lemma hexDigit_char (c : ascii) :
  isHexDigit c = true ->
  digitValue 16 c = Some (hexDigitValue c) /\ 0 <= hexDigitValue c <= 15.
Proof.
  destruct c as [[] [] [] [] [] [] [] []]; vm_compute; intros H;
    try discriminate H; repeat split; congruence.
Qed.

Lemma nonHexDigit_value (c : ascii) :
  isHexDigit c = false -> digitValue 16 c = None.
Proof.
  destruct c as [[] [] [] [] [] [] [] []]; vm_compute; intros H;
    try discriminate H; reflexivity.
Qed.

Lemma takeDigits_hex_prefix (h rest : string) :
  forall count acc,
    allHexDigits h = true -> stopsHex rest = true ->
    takeDigits 16 (h +:+ rest) count acc
    = (count + Z.of_nat (String.length h), hexValue acc h, rest).
Proof.
  induction h as [|c h IH]; intros count acc Hall Hstop.
  - change ("" +:+ rest) with rest. cbn [String.length hexValue].
    replace (count + Z.of_nat 0) with count by lia.
    destruct rest as [|c rest]; [reflexivity|].
    cbn [stopsHex] in Hstop. apply negb_true_iff in Hstop.
    cbn [takeDigits]. rewrite (nonHexDigit_value c Hstop). reflexivity.
  - cbn [allHexDigits] in Hall. apply andb_true_iff in Hall as [Hc Hh].
    destruct (hexDigit_char c Hc) as [Hv _].
    change (String c h +:+ rest) with (String c (h +:+ rest)).
    cbn [takeDigits String.length hexValue].
    rewrite Hv, IH by assumption. f_equal. f_equal. lia.
Qed.

Lemma hexValue_nonneg (h : string) :
  forall acc, allHexDigits h = true -> 0 <= acc -> 0 <= hexValue acc h.
Proof.
  induction h as [|c h IH]; intros acc Hall Hacc; cbn [hexValue]; [assumption|].
  cbn [allHexDigits] in Hall. apply andb_true_iff in Hall as [Hc Hh].
  destruct (hexDigit_char c Hc) as [_ Hr].
  apply IH; [assumption | lia].
Qed.

(** After a radix prefix, [parseInt] reads the longest run of
    hexadecimal digits in radix 16. *)
Lemma parseInt_hex_prefix (neg upper : bool) (h rest : string) :
  h <> "" -> allHexDigits h = true -> hexValue 0 h < 2 ^ 53 ->
  stopsHex rest = true ->
  hexPrefixed (signPrefix neg +:+ radixPrefix upper +:+ h +:+ rest) = true
  /\ parseInt (signPrefix neg +:+ radixPrefix upper +:+ h +:+ rest)
     = Finite neg (hexValue 0 h) 0.
Proof.
  intros Hne Hall Hlt Hstop. unfold hexPrefixed, parseInt.
  set (x := if upper then "X"%char else "x"%char).
  assert (Hs : radixPrefix upper +:+ h +:+ rest
               = String "0" (String x (h +:+ rest)))
    by (destruct upper; reflexivity).
  rewrite Hs.
  rewrite (takeSign_trimStart_signed neg "0" (String x (h +:+ rest)) eq_refl).
  assert (Hhex : startsWith "0x" (String "0" (String x (h +:+ rest)))
                 || startsWith "0X" (String "0" (String x (h +:+ rest))) = true)
    by (destruct upper; reflexivity).
  rewrite Hhex. split; [reflexivity|].
  cbn [drop2].
  rewrite (takeDigits_hex_prefix h rest 0 0 Hall Hstop).
  destruct h as [|c h']; [congruence|].
  replace (0 + Z.of_nat (String.length (String c h')) =? 0) with false
    by (symmetry; apply Z.eqb_neq; cbn [String.length]; lia).
  apply ofInteger_exact. split; [|assumption].
  apply hexValue_nonneg; [assumption | lia].
Qed.

(** C10, amended: the int32 and int64 coercions are the identical
    function [parseInt]: fields bound from the same raw string are equal,
    by query and by path. The parse is the base-10 prefix parse unless
    the string has, after white space and sign, a [0x] or [0X] prefix;
    after such a prefix the longest run of hexadecimal digits is read in
    radix 16. There is no range check: a string of decimal digits, with
    or without a minus sign, of magnitude below [2^53] is bound to
    exactly its value, within the 32-bit range or not, and so is a
    prefixed string of hexadecimal digits. *)
Theorem int32_int64_same_coercion {B} (req : Fastify.Request B) (s : string) :
  (Fastify.query req !! "int32" = Some (QString s) ->
   Fastify.query req !! "int64" = Some (QString s) ->
   f_int32 (CheckQuery.request req) = Some (parseInt s)
   /\ f_int64 (CheckQuery.request req) = Some (parseInt s))
  /\ (params req !! "int32" = Some s ->
      params req !! "int64" = Some s ->
      f_int32 (CheckPath.request req) = Some (parseInt s)
      /\ f_int64 (CheckPath.request req) = Some (parseInt s))
  /\ (hexPrefixed s = false -> parseInt s = base10PrefixParse s)
  /\ (forall (neg : bool) (digits : string),
        s = (if neg then "-" else "") +:+ digits ->
        digits <> "" -> allDigits digits = true ->
        decimalValue 0 digits < 2 ^ 53 ->
        parseInt s = Finite neg (decimalValue 0 digits) 0)
  /\ (forall (neg upper : bool) (h rest : string),
        s = signPrefix neg +:+ radixPrefix upper +:+ h +:+ rest ->
        h <> "" -> allHexDigits h = true -> hexValue 0 h < 2 ^ 53 ->
        stopsHex rest = true ->
        hexPrefixed s = true /\ parseInt s = Finite neg (hexValue 0 h) 0).
Proof.
  repeat split.
  - cbn. unfold CheckQuery.param. rewrite H. reflexivity.
  - cbn. unfold CheckQuery.param. rewrite H0. reflexivity.
  - cbn. rewrite H. reflexivity.
  - cbn. rewrite H0. reflexivity.
  - apply parseInt_base10.
  - intros neg digits -> Hne Hall Hlt. apply parseInt_digits; assumption.
  - subst s. apply parseInt_hex_prefix; assumption.
  - subst s. apply parseInt_hex_prefix; assumption.
Qed.

Lemma int32_int64_same_coercion_witness :
  let req := Fixture.get [("int32", QString "4294967296"); ("int64", QString "4294967296")]
                         [("int32", "4294967296"); ("int64", "4294967296")] in
  f_int32 (CheckQuery.request req) = Some (Finite false 4294967296 0)
  /\ f_int64 (CheckQuery.request req) = Some (Finite false 4294967296 0)
  /\ f_int32 (CheckPath.request req) = f_int64 (CheckPath.request req)
  /\ parseInt "4294967296" = base10PrefixParse "4294967296"
  /\ parseInt "-0X1fZ" = Finite true 31 0.
Proof.
  intros req.
  destruct (int32_int64_same_coercion req "-0X1fZ") as (_ & _ & _ & _ & Hhex).
  destruct (Hhex true true "1f" "Z" eq_refl) as [_ Hparse];
    [discriminate | reflexivity | vm_compute; reflexivity | reflexivity |].
  destruct (int32_int64_same_coercion req "4294967296")
    as (Hquery & Hpath & Hbase & Hexact & _).
  destruct Hquery as [H32 H64]; [vm_compute; reflexivity ..|].
  destruct Hpath as [P32 P64]; [vm_compute; reflexivity ..|].
  rewrite H32, H64, P32, P64.
  rewrite (Hexact false "4294967296" eq_refl); [| discriminate | reflexivity
                                                | vm_compute; reflexivity].
  split; [reflexivity|]. split; [reflexivity|]. split; [reflexivity|].
  split; [apply Hbase; reflexivity|].
  exact Hparse.
Defined.
